(** * cynetworkx/release.py: version metadata resolution and the generated
      version.py file

    A shallow embedding of [get_revision], [get_info] and [write_versionfile]
    of [cynetworkx/release.py].  The module is Python: values are dynamically
    typed, calls may raise, and the only state is the process environment, the
    clock and two places of the file system (the [.git] directory beside the
    package and the file [version.py] inside it).  The embedding keeps all
    three: a type of Python values, an error monad over Python's exceptions,
    and an explicit world that the operations read and update. *)

From Stdlib Require Import String Ascii List ZArith QArith Lia Bool Arith.
From Stdlib Require Import DecimalString DecimalNat.
Import ListNotations.
Open Scope string_scope.
Open Scope Z_scope.

(* ================================================================== *)
(** ** Exceptions and results *)

Inductive exn : Type :=
| ValueError        (* int() of a malformed string, timestamp out of range *)
| ImportError       (* module not found, or a name missing from it *)
| SyntaxError       (* version.py does not compile *)
| NameError         (* a name of version.py is used before it is bound *)
| TypeError         (* subscript of a value that has none *)
| IndexError        (* subscript out of range *)
| AttributeError    (* .strftime of a value that is no datetime *)
| KeyError          (* a key of the template that the dict lacks *)
| IOError.          (* open(versionfile, 'w') failed *)

Inductive result (A : Type) : Type :=
| Ok (a : A)
| Raise (e : exn).
Arguments Ok {A} a.
Arguments Raise {A} e.

Definition bind {A B : Type} (r : result A) (k : A -> result B) : result B :=
  match r with
  | Ok a => k a
  | Raise e => Raise e
  end.

Declare Scope py_scope.
Delimit Scope py_scope with py.
Notation "x <- r ;; k" := (bind r (fun x => k))
  (at level 61, r at next level, right associativity) : py_scope.
Notation "' p <- r ;; k" := (bind r (fun x => let p := x in k))
  (at level 61, p pattern, r at next level, right associativity) : py_scope.
Open Scope py_scope.

Definition returns {A : Type} (r : result A) : Prop := exists a, r = Ok a.

(* ================================================================== *)
(** ** The values of the module

    [str] is a sequence of 8-bit characters; tuples nest; a datetime is its
    seven fields, as [datetime.datetime.__repr__] prints them.  These are
    the values the module computes and writes; a version.py edited by hand
    can bind others (a dict, a class), and no statement below speaks of
    such a file. *)

Record datetime : Type := mkDatetime {
  dt_year : nat;
  dt_month : nat;
  dt_day : nat;
  dt_hour : nat;
  dt_minute : nat;
  dt_second : nat;
  dt_microsecond : nat
}.

Inductive pyval : Type :=
| PyNone
| PyBool (b : bool)
| PyStr (s : string)
| PyTuple (items : list pyval)
| PyDatetime (d : datetime).

Definition datetime_eqb (a b : datetime) : bool :=
  Nat.eqb (dt_year a) (dt_year b) && Nat.eqb (dt_month a) (dt_month b)
  && Nat.eqb (dt_day a) (dt_day b) && Nat.eqb (dt_hour a) (dt_hour b)
  && Nat.eqb (dt_minute a) (dt_minute b) && Nat.eqb (dt_second a) (dt_second b)
  && Nat.eqb (dt_microsecond a) (dt_microsecond b).

(** Python's [==] on these values. *)
Fixpoint py_eq (a b : pyval) {struct a} : bool :=
  match a, b with
  | PyNone, PyNone => true
  | PyBool x, PyBool y => Bool.eqb x y
  | PyStr x, PyStr y => String.eqb x y
  | PyTuple xs, PyTuple ys =>
      (fix all2 (l : list pyval) (r : list pyval) {struct l} : bool :=
         match l, r with
         | [], [] => true
         | x :: l', y :: r' => py_eq x y && all2 l' r'
         | _, _ => false
         end) xs ys
  | PyDatetime x, PyDatetime y => datetime_eqb x y
  | _, _ => false
  end.

(** [v[i]]: tuples and strings have subscripts, nothing else has. *)
Definition subscript (v : pyval) (i : nat) : result pyval :=
  match v with
  | PyTuple items =>
      match nth_error items i with
      | Some x => Ok x
      | None => Raise IndexError
      end
  | PyStr s =>
      match String.get i s with
      | Some c => Ok (PyStr (String c EmptyString))
      | None => Raise IndexError
      end
  | _ => Raise TypeError
  end.

(* ================================================================== *)
(** ** Decimal numerals *)

Definition dec (n : nat) : string := NilEmpty.string_of_uint (Nat.to_uint n).

(** [%02d] of a non-negative number. *)
Definition pad2 (n : nat) : string :=
  if Nat.ltb n 10 then "0" ++ dec n else dec n.

Definition is_digit (c : ascii) : bool :=
  let n := nat_of_ascii c in Nat.leb 48 n && Nat.leb n 57.

Fixpoint all_digits (s : string) : bool :=
  match s with
  | EmptyString => true
  | String c r => is_digit c && all_digits r
  end.

(** The number a non-empty string of decimal digits denotes. *)
Definition nat_of_digits (s : string) : option nat :=
  match s with
  | EmptyString => None
  | _ =>
      if all_digits s
      then option_map Nat.of_uint (NilEmpty.uint_of_string s)
      else None
  end.

(* ================================================================== *)
(** ** int(), as line 144 uses it

    [os.environ.get('SOURCE_DATE_EPOCH', time.time())] is a [str] when the
    variable is set and the clock's float otherwise.  [int] of a float
    truncates toward zero; [int] of a string accepts blanks around an
    optionally signed run of decimal digits and raises [ValueError] on
    anything else (the digit-group underscores that Python 3.6 and later
    also accept are left out). *)

Definition is_space (c : ascii) : bool :=
  let n := nat_of_ascii c in
  Nat.eqb n 32 || (Nat.leb 9 n && Nat.leb n 13).

Fixpoint lstrip (s : string) : string :=
  match s with
  | String c r => if is_space c then lstrip r else s
  | EmptyString => EmptyString
  end.

Fixpoint rstrip (s : string) : string :=
  match s with
  | EmptyString => EmptyString
  | String c r =>
      match rstrip r with
      | EmptyString => if is_space c then EmptyString else String c EmptyString
      | r' => String c r'
      end
  end.

Definition strip (s : string) : string := rstrip (lstrip s).

(** The integer a non-empty string of decimal digits denotes. *)
Definition Z_of_digits (s : string) : option Z :=
  match s with
  | EmptyString => None
  | _ =>
      if all_digits s
      then option_map Z.of_uint (NilEmpty.uint_of_string s)
      else None
  end.

Definition int_of_str (s : string) : result Z :=
  let of_opt (sign : Z) (o : option Z) :=
    match o with
    | Some n => Ok (sign * n)
    | None => Raise ValueError
    end in
  match strip s with
  | String "-" r => of_opt (-1) (Z_of_digits r)
  | String "+" r => of_opt 1 (Z_of_digits r)
  | t => of_opt 1 (Z_of_digits t)
  end.

Definition int_of_float (x : Q) : Z := Z.quot (Qnum x) (Z.pos (Qden x)).

(** What [os.environ.get(key, default)] hands to [int]. *)
Inductive str_or_float : Type :=
| AStr (s : string)
| AFloat (x : Q).

Definition py_int (a : str_or_float) : result Z :=
  match a with
  | AStr s => int_of_str s
  | AFloat x => Ok (int_of_float x)
  end.

(* ================================================================== *)
(** ** The calendar: utcfromtimestamp, timetuple, asctime, strftime

    The proleptic Gregorian calendar of Python's [datetime]: day 1 is
    0001-01-01, and the Unix epoch is day 719163. *)

Module Calendar.

Definition DI400Y : Z := 146097.
Definition DI100Y : Z := 36524.
Definition DI4Y : Z := 1461.
Definition EPOCH_ORDINAL : Z := 719163.
Definition MAX_ORDINAL : Z := 3652059.   (* 9999-12-31 *)

Definition is_leap (y : Z) : bool :=
  (y mod 4 =? 0) && (negb (y mod 100 =? 0) || (y mod 400 =? 0)).

Definition days_before_year (year : Z) : Z :=
  let y := year - 1 in y * 365 + y / 4 - y / 100 + y / 400.

Definition days_in_month (leap : bool) (m : Z) : Z :=
  if m =? 2 then (if leap then 29 else 28)
  else if (m =? 4) || (m =? 6) || (m =? 9) || (m =? 11) then 30
  else 31.

Definition DAYS_BEFORE_MONTH (m : Z) : Z :=
  nth (Z.to_nat m) [0; 0; 31; 59; 90; 120; 151; 181; 212; 243; 273; 304; 334] 0.

Definition days_before_month (leap : bool) (m : Z) : Z :=
  DAYS_BEFORE_MONTH m + (if (2 <? m) && leap then 1 else 0).

Definition ymd2ord (y m d : Z) : Z :=
  days_before_year y + days_before_month (is_leap y) m + d.

(** [_ord2ymd]: the date of an ordinal, by 400-, 100-, 4- and 1-year
    cycles. *)
Definition ord2ymd (ordinal : Z) : Z * Z * Z :=
  let n := ordinal - 1 in
  let n400 := n / DI400Y in
  let n := n mod DI400Y in
  let year := n400 * 400 + 1 in
  let n100 := n / DI100Y in
  let n := n mod DI100Y in
  let n4 := n / DI4Y in
  let n := n mod DI4Y in
  let n1 := n / 365 in
  let n := n mod 365 in
  let year := year + n100 * 100 + n4 * 4 + n1 in
  if (n1 =? 4) || (n100 =? 4) then (year - 1, 12, 31)
  else
    let leapyear := (n1 =? 3) && (negb (n4 =? 24) || (n100 =? 3)) in
    let month := Z.shiftr (n + 50) 5 in
    let preceding := days_before_month leapyear month in
    if n <? preceding
    then
      let month := month - 1 in
      let preceding := preceding - days_in_month leapyear month in
      (year, month, n - preceding + 1)
    else (year, month, n - preceding + 1).

(** [datetime.datetime.utcfromtimestamp(t)] for an integer [t]: the
    microsecond is 0, and a year outside 1..9999 raises. *)
Definition utcfromtimestamp (t : Z) : result datetime :=
  let ordinal := EPOCH_ORDINAL + t / 86400 in
  let secs := t mod 86400 in
  if (ordinal <? 1) || (MAX_ORDINAL <? ordinal) then Raise ValueError
  else
    let '(y, m, d) := ord2ymd ordinal in
    Ok (mkDatetime (Z.to_nat y) (Z.to_nat m) (Z.to_nat d)
          (Z.to_nat (secs / 3600)) (Z.to_nat ((secs mod 3600) / 60))
          (Z.to_nat (secs mod 60)) 0).

(** Monday is 0, as [datetime.weekday] and [tm_wday] have it. *)
Definition weekday (d : datetime) : Z :=
  (ymd2ord (Z.of_nat (dt_year d)) (Z.of_nat (dt_month d)) (Z.of_nat (dt_day d)) + 6)
    mod 7.

Definition day_name (w : Z) : string :=
  nth (Z.to_nat w) ["Mon"; "Tue"; "Wed"; "Thu"; "Fri"; "Sat"; "Sun"] "???".

Definition month_name (m : nat) : string :=
  nth m ["???"; "Jan"; "Feb"; "Mar"; "Apr"; "May"; "Jun";
         "Jul"; "Aug"; "Sep"; "Oct"; "Nov"; "Dec"] "???".

(** [time.asctime(d.timetuple())]: ['Thu Jan  1 00:00:00 1970'], the day of
    the month right-aligned in two columns. *)
Definition asctime (d : datetime) : string :=
  day_name (weekday d) ++ " " ++ month_name (dt_month d) ++ " "
  ++ (if Nat.ltb (dt_day d) 10 then " " ++ dec (dt_day d) else dec (dt_day d))
  ++ " " ++ pad2 (dt_hour d) ++ ":" ++ pad2 (dt_minute d) ++ ":"
  ++ pad2 (dt_second d) ++ " " ++ dec (dt_year d).

(** [d.strftime("%Y%m%d%H%M%S")].  The year is printed as CPython 3 prints
    it on glibc, by its decimal numeral without padding.  Below the year
    1000 a C library that pads [%Y] to four digits prints otherwise, and
    Python 2.7 refuses the years below 1900; from 1900 on all of them
    print the same fourteen digits. *)
Definition strftime_YmdHMS (d : datetime) : string :=
  dec (dt_year d) ++ pad2 (dt_month d) ++ pad2 (dt_day d)
  ++ pad2 (dt_hour d) ++ pad2 (dt_minute d) ++ pad2 (dt_second d).

End Calendar.


(* ================================================================== *)
(** ** repr

    [%(key)r] in the template substitutes [repr] of the value.  For [str]:
    single quotes unless the string holds a single quote and no double
    quote; backslash and the chosen quote are escaped, tab, newline and
    carriage return by letter, any other character outside the printable
    ASCII range as [\xNN]. *)

Definition bslash : ascii := "\"%char.
Definition squote : ascii := "'"%char.
Definition dquote : ascii := "034"%char.
Definition newline : ascii := "010"%char.
Definition tab : ascii := "009"%char.
Definition cr : ascii := "013"%char.

Definition hex_digit (n : nat) : ascii :=
  nth n ["0"; "1"; "2"; "3"; "4"; "5"; "6"; "7"; "8"; "9";
         "a"; "b"; "c"; "d"; "e"; "f"]%char "0"%char.

Definition hex2 (c : ascii) : string :=
  let n := nat_of_ascii c in
  String (hex_digit (n / 16)) (String (hex_digit (n mod 16)) EmptyString).

Definition escape_char (q c : ascii) : string :=
  let n := nat_of_ascii c in
  if Ascii.eqb c bslash then String bslash (String bslash EmptyString)
  else if Ascii.eqb c q then String bslash (String q EmptyString)
  else if Ascii.eqb c tab then String bslash "t"
  else if Ascii.eqb c newline then String bslash "n"
  else if Ascii.eqb c cr then String bslash "r"
  else if Nat.ltb n 32 || Nat.leb 127 n then String bslash (String "x" (hex2 c))
  else String c EmptyString.

Fixpoint escape (q : ascii) (s : string) : string :=
  match s with
  | EmptyString => EmptyString
  | String c r => escape_char q c ++ escape q r
  end.

Fixpoint contains (c : ascii) (s : string) : bool :=
  match s with
  | EmptyString => false
  | String x r => Ascii.eqb x c || contains c r
  end.

Definition quote_for (s : string) : ascii :=
  if contains squote s && negb (contains dquote s) then dquote else squote.

Definition repr_str (s : string) : string :=
  let q := quote_for s in
  String q (escape q s ++ String q EmptyString).

Fixpoint join (sep : string) (l : list string) : string :=
  match l with
  | [] => EmptyString
  | [x] => x
  | x :: r => x ++ sep ++ join sep r
  end.

(** [datetime.__repr__] drops a zero microsecond, and then a zero second. *)
Definition repr_datetime (d : datetime) : string :=
  let l := [dt_year d; dt_month d; dt_day d; dt_hour d; dt_minute d] in
  let l :=
    if Nat.eqb (dt_microsecond d) 0
    then (if Nat.eqb (dt_second d) 0 then l else (l ++ [dt_second d])%list)
    else (l ++ [dt_second d; dt_microsecond d])%list in
  "datetime.datetime(" ++ join ", " (map dec l) ++ ")".

Fixpoint repr (v : pyval) : string :=
  match v with
  | PyNone => "None"
  | PyBool true => "True"
  | PyBool false => "False"
  | PyStr s => repr_str s
  | PyTuple items =>
      match items with
      | [_] => "(" ++ join ", " (map repr items) ++ ",)"
      | _ => "(" ++ join ", " (map repr items) ++ ")"
      end
  | PyDatetime d => repr_datetime d
  end.

(* ================================================================== *)
(** ** The template of version.py and [text % subs] *)

Definition dq3 : string := String dquote (String dquote (String dquote EmptyString)).
Definition dq : string := String dquote EmptyString.
Definition nl : string := String newline EmptyString.

Fixpoint unlines (l : list string) : string :=
  match l with
  | [] => EmptyString
  | x :: r => x ++ nl ++ unlines r
  end.

(** Lines 59-84: the text between the triple quotes.  It starts with the
    three double quotes of the generated file's own docstring and ends with
    an empty line. *)
Definition text : string :=
  unlines [
    dq3;
    "Version information for cyNetworkX, created during installation.";
    EmptyString;
    "Do not add this file to the repository.";
    EmptyString;
    dq3;
    EmptyString;
    "import datetime";
    EmptyString;
    "version = %(version)r";
    "date = %(date)r";
    EmptyString;
    "# Was cyNetworkX built from a development version? If so, remember that the major";
    "# and minor versions reference the " ++ dq ++ "target" ++ dq
      ++ " (rather than " ++ dq ++ "current" ++ dq ++ ") release.";
    "dev = %(dev)r";
    EmptyString;
    "# Format: (name, major, min, revision)";
    "version_info = %(version_info)r";
    EmptyString;
    "# Format: a 'datetime.datetime' instance";
    "date_info = %(date_info)r";
    EmptyString;
    "# Format: (vcs, vcs_tuple)";
    "vcs_info = %(vcs_info)r";
    EmptyString
  ].

(** A dict with string keys, as an association list. *)
Definition dict : Type := list (string * pyval).

Fixpoint lookup (k : string) (d : dict) : option pyval :=
  match d with
  | [] => None
  | (k', v) :: r => if String.eqb k k' then Some v else lookup k r
  end.

(** [template % subs] for the one directive the template uses, [%(key)r].
    A missing key raises; a [%] in any other form is beyond this model and
    reported as [ValueError]. *)
Inductive fmt_state : Type :=
| Literal
| Percent
| Key (k : string)
| Conv (k : string).

Fixpoint format_from (st : fmt_state) (template : string) (subs : dict)
  : result string :=
  match template with
  | EmptyString =>
      match st with
      | Literal => Ok EmptyString
      | _ => Raise ValueError
      end
  | String c r =>
      match st with
      | Literal =>
          if Ascii.eqb c "%" then format_from Percent r subs
          else s <- format_from Literal r subs ;; Ok (String c s)
      | Percent =>
          if Ascii.eqb c "(" then format_from (Key EmptyString) r subs
          else Raise ValueError
      | Key k =>
          if Ascii.eqb c ")" then format_from (Conv k) r subs
          else format_from (Key (k ++ String c EmptyString)) r subs
      | Conv k =>
          if Ascii.eqb c "r" then
            match lookup k subs with
            | Some v => s <- format_from Literal r subs ;; Ok (repr v ++ s)
            | None => Raise KeyError
            end
          else Raise ValueError
      end
  end.

Definition py_format (template : string) (subs : dict) : result string :=
  format_from Literal template subs.

(* ================================================================== *)
(** ** Importing version.py

    [from version import ...] runs the text of version.py.  The interpreter
    below covers the statements the template emits (a docstring in triple
    double quotes, comment lines, empty lines, [import datetime] and
    [name = literal]) and the literals [repr] prints: [None], [True],
    [False], quoted strings with their escapes, parenthesised tuples and
    [datetime.datetime(...)] with five to seven decimal arguments.  A text
    outside this fragment is reported as [SyntaxError]. *)

Fixpoint strip_prefix (p s : string) : option string :=
  match p with
  | EmptyString => Some s
  | String a p' =>
      match s with
      | String b s' => if Ascii.eqb a b then strip_prefix p' s' else None
      | EmptyString => None
      end
  end.

Definition hex_value (c : ascii) : option nat :=
  let n := nat_of_ascii c in
  if Nat.leb 48 n && Nat.leb n 57 then Some (n - 48)%nat
  else if Nat.leb 97 n && Nat.leb n 102 then Some (n - 87)%nat
  else if Nat.leb 65 n && Nat.leb n 70 then Some (n - 55)%nat
  else None.

(** The character a one-letter escape stands for. *)
Definition unescape (e : ascii) : option ascii :=
  if Ascii.eqb e bslash then Some bslash
  else if Ascii.eqb e squote then Some squote
  else if Ascii.eqb e dquote then Some dquote
  else if Ascii.eqb e "t" then Some tab
  else if Ascii.eqb e "n" then Some newline
  else if Ascii.eqb e "r" then Some cr
  else None.

(** The body of a string literal opened by [q]: the string it denotes and
    what follows the closing quote.  A literal does not run over a line. *)
Fixpoint parse_str_body (q : ascii) (s : string) : result (string * string) :=
  match s with
  | EmptyString => Raise SyntaxError
  | String c r =>
      if Ascii.eqb c q then Ok (EmptyString, r)
      else if Ascii.eqb c newline then Raise SyntaxError
      else if Ascii.eqb c bslash then
        match r with
        | String e r' =>
            if Ascii.eqb e "x" then
              match r' with
              | String h1 (String h2 r'') =>
                  match hex_value h1, hex_value h2 with
                  | Some a, Some b =>
                      '(t, rest) <- parse_str_body q r'' ;;
                      Ok (String (ascii_of_nat (16 * a + b)) t, rest)
                  | _, _ => Raise SyntaxError
                  end
              | _ => Raise SyntaxError
              end
            else
              match unescape e with
              | Some ch =>
                  '(t, rest) <- parse_str_body q r' ;;
                  Ok (String ch t, rest)
              | None => Raise SyntaxError
              end
        | EmptyString => Raise SyntaxError
        end
      else '(t, rest) <- parse_str_body q r ;; Ok (String c t, rest)
  end.

(** The longest run of decimal digits at the head of [s], and the rest. *)
Fixpoint span_digits (s : string) : string * string :=
  match s with
  | String c r =>
      if is_digit c
      then let '(d, rest) := span_digits r in (String c d, rest)
      else (EmptyString, s)
  | EmptyString => (EmptyString, EmptyString)
  end.

Definition parse_nat (s : string) : result (nat * string) :=
  let '(d, rest) := span_digits s in
  match nat_of_digits d with
  | Some n => Ok (n, rest)
  | None => Raise SyntaxError
  end.

(** Decimal arguments separated by [", "], up to the closing parenthesis. *)
Fixpoint parse_nat_args (fuel : nat) (s : string) : result (list nat * string) :=
  match fuel with
  | O => Raise SyntaxError
  | S f =>
      '(n, r) <- parse_nat s ;;
      match r with
      | String ")" r' => Ok ([n], r')
      | String "," (String " " r') =>
          '(l, rest) <- parse_nat_args f r' ;; Ok (n :: l, rest)
      | _ => Raise SyntaxError
      end
  end.

(** [datetime.datetime(y, m, d, H, M[, S[, us]])]. *)
Definition datetime_of_args (l : list nat) : result pyval :=
  match l with
  | [y; m; d; hh; mm] => Ok (PyDatetime (mkDatetime y m d hh mm 0 0))
  | [y; m; d; hh; mm; ss] => Ok (PyDatetime (mkDatetime y m d hh mm ss 0))
  | [y; m; d; hh; mm; ss; us] => Ok (PyDatetime (mkDatetime y m d hh mm ss us))
  | _ => Raise TypeError
  end.

(** An expression at the head of [s]: its value and what follows it.
    [dt] says whether [import datetime] has run. *)
Fixpoint parse_expr (fuel : nat) (dt : bool) (s : string) {struct fuel}
  : result (pyval * string) :=
  match fuel with
  | O => Raise SyntaxError
  | S f =>
      match s with
      | EmptyString => Raise SyntaxError
      | String c r =>
          if Ascii.eqb c squote || Ascii.eqb c dquote then
            '(t, rest) <- parse_str_body c r ;; Ok (PyStr t, rest)
          else if Ascii.eqb c "(" then
            match strip_prefix ")" r with
            | Some r' => Ok (PyTuple [], r')
            | None =>
                '(x, r1) <- parse_expr f dt r ;;
                match strip_prefix ")" r1 with
                | Some r2 => Ok (x, r2)           (* parentheses, no tuple *)
                | None => parse_more f dt [x] r1
                end
            end
          else
            match strip_prefix "None" s with
            | Some rest => Ok (PyNone, rest)
            | None =>
            match strip_prefix "True" s with
            | Some rest => Ok (PyBool true, rest)
            | None =>
            match strip_prefix "False" s with
            | Some rest => Ok (PyBool false, rest)
            | None =>
            match strip_prefix "datetime.datetime(" s with
            | Some rest =>
                if dt then
                  '(l, rest') <- parse_nat_args (String.length rest) rest ;;
                  v <- datetime_of_args l ;;
                  Ok (v, rest')
                else Raise NameError
            | None => Raise SyntaxError
            end end end end
      end
  end

(** What follows an element of a tuple whose elements so far are [acc]. *)
with parse_more (fuel : nat) (dt : bool) (acc : list pyval) (s : string)
  {struct fuel} : result (pyval * string) :=
  match fuel with
  | O => Raise SyntaxError
  | S f =>
      match strip_prefix ",)" s with
      | Some r => Ok (PyTuple acc, r)
      | None =>
          match strip_prefix ", " s with
          | Some r =>
              '(x, r1) <- parse_expr f dt r ;;
              match strip_prefix ")" r1 with
              | Some r2 => Ok (PyTuple (acc ++ [x])%list, r2)
              | None => parse_more f dt (acc ++ [x])%list r1
              end
          | None => Raise SyntaxError
          end
      end
  end.

(** The names a module binds, the latest binding first. *)
Record mstate : Type := mkMstate {
  in_docstring : bool;
  has_datetime : bool;
  bindings : dict
}.

Definition is_ident_char (c : ascii) : bool :=
  let n := nat_of_ascii c in
  (Nat.leb 97 n && Nat.leb n 122) || (Nat.leb 65 n && Nat.leb n 90)
  || (Nat.leb 48 n && Nat.leb n 57) || Nat.eqb n 95.

Fixpoint span_ident (s : string) : string * string :=
  match s with
  | String c r =>
      if is_ident_char c
      then let '(i, rest) := span_ident r in (String c i, rest)
      else (EmptyString, s)
  | EmptyString => (EmptyString, EmptyString)
  end.

(** What follows the first newline of [s]. *)
Fixpoint skip_line (s : string) : string :=
  match s with
  | EmptyString => EmptyString
  | String c r => if Ascii.eqb c newline then r else skip_line r
  end.

(** A line inside the docstring: it may hold neither a double quote nor a
    backslash. *)
Fixpoint plain_line (s : string) : bool :=
  match s with
  | EmptyString => true
  | String c r =>
      if Ascii.eqb c newline then true
      else if Ascii.eqb c dquote || Ascii.eqb c bslash then false
      else plain_line r
  end.

(** The statements of the text from the start of a line on, one line a
    step. *)
Fixpoint exec_text (fuel : nat) (st : mstate) (s : string) : result dict :=
  match fuel with
  | O => Raise SyntaxError
  | S f =>
      match s with
      | EmptyString =>
          if in_docstring st then Raise SyntaxError else Ok (bindings st)
      | String c r =>
          if in_docstring st then
            match strip_prefix (dq3 ++ nl) s with
            | Some r' =>
                exec_text f (mkMstate false (has_datetime st) (bindings st)) r'
            | None =>
                if plain_line s then exec_text f st (skip_line s)
                else Raise SyntaxError
            end
          else if Ascii.eqb c newline then exec_text f st r
          else if Ascii.eqb c "#" then exec_text f st (skip_line r)
          else if Ascii.eqb c dquote then
            match strip_prefix (dq3 ++ nl) s with
            | Some r' =>
                exec_text f (mkMstate true (has_datetime st) (bindings st)) r'
            | None => Raise SyntaxError
            end
          else
            let '(name, r1) := span_ident s in
            if String.eqb name "import" then
              match strip_prefix (" datetime" ++ nl) r1 with
              | Some r2 => exec_text f (mkMstate false true (bindings st)) r2
              | None => Raise SyntaxError
              end
            else
              match name, strip_prefix " = " r1 with
              | String _ _, Some r2 =>
                  '(v, r3) <- parse_expr (String.length r2) (has_datetime st) r2 ;;
                  let st' :=
                    mkMstate false (has_datetime st) ((name, v) :: bindings st) in
                  match r3 with
                  | EmptyString => Ok (bindings st')
                  | String c3 r4 =>
                      if Ascii.eqb c3 newline then exec_text f st' r4
                      else Raise SyntaxError
                  end
              | _, _ => Raise SyntaxError
              end
      end
  end.

Definition exec_module (source : string) : result dict :=
  exec_text (S (String.length source)) (mkMstate false false []) source.

(* ================================================================== *)
(** ** The world

    What the module reads and writes outside itself.  [basedir] is the
    directory of release.py; [from version import ...] finds
    [basedir/version.py] (setup.py puts [basedir] first on [sys.path]) and
    runs it anew each time. *)

Record World : Type := mkWorld {
  (** [os.environ.get('SOURCE_DATE_EPOCH')] *)
  SOURCE_DATE_EPOCH : option string;
  (** [time.time()] *)
  time_time : Q;
  (** [os.path.isdir(os.path.join(basedir, '..', '.git'))] *)
  gitdir_isdir : bool;
  (** the regular file [basedir/version.py], when there is one *)
  versionfile : option string;
  (** whether [open(versionfile, 'w')] succeeds *)
  versionfile_writable : bool;
  (** the texts written to [versionfile] so far, the latest first *)
  written : list string
}.

Definition environ_get (w : World) (default : Q) : str_or_float :=
  match SOURCE_DATE_EPOCH w with
  | Some s => AStr s
  | None => AFloat default
  end.

Definition isfile (w : World) : bool :=
  match versionfile w with
  | Some _ => true
  | None => false
  end.

(** [import version]: the names version.py binds. *)
Definition import_version (w : World) : result dict :=
  match versionfile w with
  | None => Raise ImportError
  | Some source => exec_module source
  end.

(** [fh = open(versionfile, 'w')] *)
Definition open_w (w : World) : result unit :=
  if versionfile_writable w then Ok tt else Raise IOError.

(** [fh.write(s); fh.close()] *)
Definition fh_write (w : World) (s : string) : World :=
  mkWorld (SOURCE_DATE_EPOCH w) (time_time w) (gitdir_isdir w)
    (Some s) (versionfile_writable w) (s :: written w).

(* ================================================================== *)
(** ** release.py *)

(** Lines 184-191: the constants the functions read. *)
Record globals : Type := mkGlobals {
  name : string;
  major : string;
  minor : string;
  dev : bool
}.

Definition release : globals := mkGlobals "cynetworkx" "3" "0" true.

(** The tuple [get_info] returns. *)
Record info : Type := mkInfo {
  date : pyval;
  date_info : pyval;
  version : pyval;
  version_info : pyval;
  vcs_info : pyval
}.

(** The local variables of [get_info]. *)
Record locals : Type := mkLocals {
  l_date : pyval;
  l_date_info : pyval;
  l_revision : pyval;
  l_version : pyval;
  l_version_info : pyval;
  l_vcs_info : pyval
}.

Definition set_date (v : pyval) (l : locals) : locals :=
  mkLocals v (l_date_info l) (l_revision l) (l_version l) (l_version_info l) (l_vcs_info l).
Definition set_date_info (v : pyval) (l : locals) : locals :=
  mkLocals (l_date l) v (l_revision l) (l_version l) (l_version_info l) (l_vcs_info l).
Definition set_revision (v : pyval) (l : locals) : locals :=
  mkLocals (l_date l) (l_date_info l) v (l_version l) (l_version_info l) (l_vcs_info l).
Definition set_version (v : pyval) (l : locals) : locals :=
  mkLocals (l_date l) (l_date_info l) (l_revision l) v (l_version_info l) (l_vcs_info l).
Definition set_version_info (v : pyval) (l : locals) : locals :=
  mkLocals (l_date l) (l_date_info l) (l_revision l) (l_version l) v (l_vcs_info l).
Definition set_vcs_info (v : pyval) (l : locals) : locals :=
  mkLocals (l_date l) (l_date_info l) (l_revision l) (l_version l) (l_version_info l) v.

(** [from version import date, date_info, version, version_info, vcs_info]:
    the names are fetched and stored one after the other, so a name the
    module lacks raises after the names before it are bound.  The result is
    the locals and whether every name was found. *)
Definition import_targets : list (string * (pyval -> locals -> locals)) :=
  [("date", set_date); ("date_info", set_date_info); ("version", set_version);
   ("version_info", set_version_info); ("vcs_info", set_vcs_info)].

Fixpoint import_from (m : dict) (targets : list (string * (pyval -> locals -> locals)))
  (l : locals) : locals * bool :=
  match targets with
  | [] => (l, true)
  | (k, set) :: rest =>
      match lookup k m with
      | Some v => import_from m rest (set v l)
      | None => (l, false)
      end
  end.

Definition is_None (v : pyval) : bool :=
  match v with
  | PyNone => true
  | _ => false
  end.

(** [v.strftime("%Y%m%d%H%M%S")] *)
Definition strftime (v : pyval) : result string :=
  match v with
  | PyDatetime d => Ok (Calendar.strftime_YmdHMS d)
  | _ => Raise AttributeError
  end.

Section Release.

Variable g : globals.

(** Lines 127-139. *)
Definition get_revision (w : World) : pyval * pyval :=
  let vcs := PyNone in
  let revision := PyNone in
  let tag := PyNone in
  let vcs := if gitdir_isdir w then PyStr "git" else vcs in
  let vcs_info := PyTuple [vcs; PyTuple [revision; tag]] in
  (revision, vcs_info).

(** Lines 144-145: the date information. *)
Definition date_information (w : World) : result datetime :=
  t <- py_int (environ_get w (time_time w)) ;;
  Calendar.utcfromtimestamp t.

(** Lines 147-180, from the computed date on. *)
Definition get_info_from (dynamic : bool) (w : World) (d : datetime) : result info :=
  let l := mkLocals (PyStr (Calendar.asctime d)) (PyDatetime d)
             PyNone PyNone PyNone PyNone in
  let import_failed := false in
  let dynamic_failed := false in
  (* if dynamic: *)
  let '(l, dynamic_failed) :=
    if dynamic then
      let '(revision, vcs_info) := get_revision w in
      let l := set_vcs_info vcs_info (set_revision revision l) in
      (l, if is_None revision then true else dynamic_failed)
    else (l, dynamic_failed) in
  (* if dynamic_failed or not dynamic: *)
  '(l, import_failed) <-
    (if dynamic_failed || negb dynamic then
       match import_version w with
       | Raise ImportError =>
           Ok (set_vcs_info (PyTuple [PyNone; PyTuple [PyNone; PyNone]]) l, true)
       | Raise e => Raise e
       | Ok m =>
           let '(l, found) := import_from m import_targets l in
           if found then
             (* else: revision = vcs_info[1][0] *)
             x <- subscript (l_vcs_info l) 1 ;;
             revision <- subscript x 0 ;;
             Ok (set_revision revision l, import_failed)
           else
             (* except ImportError: *)
             Ok (set_vcs_info (PyTuple [PyNone; PyTuple [PyNone; PyNone]]) l, true)
       end
     else Ok (l, import_failed)) ;;
  (* if import_failed or (dynamic and not dynamic_failed): *)
  l <- (if import_failed || (dynamic && negb dynamic_failed) then
          let version := major g ++ "." ++ minor g in
          version <-
            (if dev g then
               stamp <- strftime (l_date_info l) ;;
               Ok (version ++ ".dev_" ++ stamp)
             else Ok version) ;;
          Ok (set_version_info
                (PyTuple [PyStr (name g); PyStr (major g); PyStr (minor g); l_revision l])
                (set_version (PyStr version) l))
        else Ok l) ;;
  Ok (mkInfo (l_date l) (l_date_info l) (l_version l) (l_version_info l) (l_vcs_info l)).

(** Lines 142-180. *)
Definition get_info (dynamic : bool) (w : World) : result info :=
  d <- date_information w ;;
  get_info_from dynamic w d.

(** Lines 89-100: the nested [writefile], over the variables of its
    enclosing call. *)
Definition writefile (w : World) (i : info) : result World :=
  _ <- open_w w ;;
  let subs := [
    ("dev", PyBool (dev g));
    ("version", version i);
    ("version_info", version_info i);
    ("date", date i);
    ("date_info", date_info i);
    ("vcs_info", vcs_info i)
  ] in
  s <- py_format text subs ;;
  Ok (fh_write w s).

(** Lines 55-124: the world it leaves and the version it returns. *)
Definition write_versionfile (w : World) : result (World * pyval) :=
  (* Try to update all information *)
  i <- get_info true w ;;
  kind <- subscript (vcs_info i) 0 ;;
  if py_eq kind (PyStr "mercurial") then
    w' <- writefile w i ;;
    Ok (w', version i)
  else if isfile w then
    (* from version import version *)
    m <- import_version w ;;
    match lookup "version" m with
    | Some v => Ok (w, v)
    | None => Raise ImportError
    end
  else
    w' <- writefile w i ;;
    Ok (w', version i).

End Release.

(* ================================================================== *)
(** ** Notions the proofs use *)

(** A string that does not start with a decimal digit. *)
Definition starts_nondigit (s : string) : Prop :=
  match s with
  | String c _ => is_digit c = false
  | EmptyString => True
  end.

(** What [repr] prints for the elements of a tuple after the first. *)
Fixpoint elems_repr (l : list pyval) : string :=
  match l with
  | [] => EmptyString
  | y :: r => ", " ++ repr y ++ elems_repr r
  end.

(** A string without a newline. *)
Definition no_newline (s : string) : bool := negb (contains newline s).

(** A string without newline, double quote and backslash: a line of the
    docstring. *)
Definition plain_text (s : string) : bool :=
  negb (contains newline s) && negb (contains dquote s) && negb (contains bslash s).

(** A non-empty run of identifier characters. *)
Fixpoint all_ident (s : string) : bool :=
  match s with
  | EmptyString => true
  | String c r => is_ident_char c && all_ident r
  end.

(** What [writefile] writes, with [repr] of the six values in place: the
    template of lines 59-84 after the substitution. *)
Definition generated_text (dev version version_info date date_info vcs_info : pyval)
  : string :=
  unlines [
    dq3;
    "Version information for cyNetworkX, created during installation.";
    EmptyString;
    "Do not add this file to the repository.";
    EmptyString;
    dq3;
    EmptyString;
    "import datetime";
    EmptyString;
    "version = " ++ repr version;
    "date = " ++ repr date;
    EmptyString;
    "# Was cyNetworkX built from a development version? If so, remember that the major";
    "# and minor versions reference the " ++ dq ++ "target" ++ dq
      ++ " (rather than " ++ dq ++ "current" ++ dq ++ ") release.";
    "dev = " ++ repr dev;
    EmptyString;
    "# Format: (name, major, min, revision)";
    "version_info = " ++ repr version_info;
    EmptyString;
    "# Format: a 'datetime.datetime' instance";
    "date_info = " ++ repr date_info;
    EmptyString;
    "# Format: (vcs, vcs_tuple)";
    "vcs_info = " ++ repr vcs_info;
    EmptyString
  ].

(** What [get_info] returns when the import raised [ImportError], from the
    [date] and [date_info] its locals hold by then (lines 166, 175-178). *)
Definition fallback (g : globals) (date date_info : pyval) : result info :=
  version <-
    (if dev g then
       stamp <- strftime date_info ;;
       Ok ((major g ++ "." ++ minor g) ++ ".dev_" ++ stamp)
     else Ok (major g ++ "." ++ minor g)) ;;
  Ok (mkInfo date date_info (PyStr version)
        (PyTuple [PyStr (name g); PyStr (major g); PyStr (minor g); PyNone])
        (PyTuple [PyNone; PyTuple [PyNone; PyNone]])).

(** [from version import date, date_info, version, version_info, vcs_info]
    raises [ImportError]: there is no version.py, or it runs and leaves one
    of the five names unbound. *)
Definition raises_ImportError (w : World) : Prop :=
  import_version w = Raise ImportError
  \/ exists m k,
       import_version w = Ok m
       /\ In k (map fst import_targets)
       /\ lookup k m = None.

(* ================================================================== *)
(** ** Worlds the examples run in *)

(** A fresh checkout without [.git] and without [version.py], on
    2018-01-01 00:00:00 UTC. *)
Definition w_fresh : World :=
  mkWorld None (1514764800 # 1) false None true [].

(** The same a year later. *)
Definition w_fresh_2019 : World :=
  mkWorld None (1546300800 # 1) false None true [].

(** What [write_versionfile] leaves in [w_fresh]. *)
Definition version_py_2018 : string :=
  generated_text (PyBool true) (PyStr "3.0.dev_20180101000000")
    (PyTuple [PyStr "cynetworkx"; PyStr "3"; PyStr "0"; PyNone])
    (PyStr "Mon Jan  1 00:00:00 2018")
    (PyDatetime (mkDatetime 2018 1 1 0 0 0 0))
    (PyTuple [PyNone; PyTuple [PyNone; PyNone]]).

(** A git checkout a year later that still holds that [version.py]. *)
Definition w_git : World :=
  mkWorld None (1546300800 # 1) true (Some version_py_2018) true [].

(** An unpacked tarball, without [.git], whose [version.py] was generated
    from a mercurial checkout of a release ([dev = False]). *)
Definition version_py_hg : string :=
  generated_text (PyBool false) (PyStr "3.0")
    (PyTuple [PyStr "cynetworkx"; PyStr "3"; PyStr "0"; PyStr "0f1e2d3c4b5a"])
    (PyStr "Mon Jan  1 00:00:00 2018")
    (PyDatetime (mkDatetime 2018 1 1 0 0 0 0))
    (PyTuple [PyStr "mercurial"; PyTuple [PyStr "0f1e2d3c4b5a"; PyStr "tip"]]).

Definition w_hg_tarball : World :=
  mkWorld None (1546300800 # 1) false (Some version_py_hg) true [].

(** A [version.py] cut off in the middle of its first assignment. *)
Definition w_truncated : World :=
  mkWorld None (1546300800 # 1) false (Some "version = '3.0") true [].

(** A [version.py] that binds [date] and [date_info] and nothing else. *)
Definition w_partial : World :=
  mkWorld None (1546300800 # 1) false
    (Some ("date = 'never'" ++ nl ++ "date_info = None" ++ nl)) true [].

(** [SOURCE_DATE_EPOCH] set to a word. *)
Definition w_bad_epoch : World :=
  mkWorld (Some "yesterday") (1546300800 # 1) false None true [].

(** [SOURCE_DATE_EPOCH=0] beside the [version.py] of 2018. *)
Definition w_epoch0 : World :=
  mkWorld (Some "0") (1546300800 # 1) false (Some version_py_2018) true [].

(** [SOURCE_DATE_EPOCH=0] and no [version.py]. *)
Definition w_epoch0_fresh : World :=
  mkWorld (Some "0") (1546300800 # 1) false None true [].

(** An unpacked tarball a year later, without [.git], that holds the
    [version.py] of 2018. *)
Definition w_tarball : World :=
  mkWorld None (1546300800 # 1) false (Some version_py_2018) true [].

(** A [version.py] that binds [date] and a datetime [date_info] and nothing
    else. *)
Definition w_dates_only : World :=
  mkWorld None (1546300800 # 1) false
    (Some ("import datetime" ++ nl
           ++ "date = 'Mon Jan  1 00:00:00 2018'" ++ nl
           ++ "date_info = datetime.datetime(2018, 1, 1, 0, 0)" ++ nl))
    true [].

(** [SOURCE_DATE_EPOCH] set to 2018-01-01 00:00:00 UTC, a year later, and no
    [version.py]. *)
Definition w_epoch_2018 : World :=
  mkWorld (Some "1514764800") (1546300800 # 1) false None true [].

(** An empty [version.py], as a write cut short after [open] leaves it. *)
Definition w_empty : World :=
  mkWorld None (1546300800 # 1) false (Some EmptyString) true [].

(** [SOURCE_DATE_EPOCH] set and empty, in a tree without [version.py]. *)
Definition w_empty_epoch : World :=
  mkWorld (Some EmptyString) (1546300800 # 1) false None true [].

(* ================================================================== *)
(** * Properties *)

(** ** Sanity checks of the runtime model *)

Example int_of_str_plain : int_of_str "1514764800" = Ok 1514764800.
Proof. reflexivity. Qed.

Example int_of_str_blank_sign : int_of_str " -12 " = Ok (-12).
Proof. reflexivity. Qed.

Example int_of_str_garbage : int_of_str "yesterday" = Raise ValueError.
Proof. reflexivity. Qed.

Example int_of_str_empty : int_of_str EmptyString = Raise ValueError.
Proof. reflexivity. Qed.

Example utc_epoch :
  Calendar.utcfromtimestamp 0 = Ok (mkDatetime 1970 1 1 0 0 0 0).
Proof. reflexivity. Qed.

Example utc_2018 :
  Calendar.utcfromtimestamp 1514764800 = Ok (mkDatetime 2018 1 1 0 0 0 0).
Proof. reflexivity. Qed.

Example utc_leap_day :
  Calendar.utcfromtimestamp 951827696 = Ok (mkDatetime 2000 2 29 12 34 56 0).
Proof. reflexivity. Qed.

Example utc_before_epoch :
  Calendar.utcfromtimestamp (-1) = Ok (mkDatetime 1969 12 31 23 59 59 0).
Proof. reflexivity. Qed.

Example utc_year_10000 :
  Calendar.utcfromtimestamp 253402300800 = Raise ValueError.
Proof. reflexivity. Qed.

Example asctime_2018 :
  Calendar.asctime (mkDatetime 2018 1 1 0 0 0 0) = "Mon Jan  1 00:00:00 2018".
Proof. reflexivity. Qed.

Example asctime_leap_day :
  Calendar.asctime (mkDatetime 2000 2 29 12 34 56 0) = "Tue Feb 29 12:34:56 2000".
Proof. reflexivity. Qed.

Example strftime_leap_day :
  Calendar.strftime_YmdHMS (mkDatetime 2000 2 29 12 34 56 0) = "20000229123456".
Proof. reflexivity. Qed.

Example strftime_year_1 :
  Calendar.strftime_YmdHMS (mkDatetime 1 1 1 0 0 0 0) = "10101000000".
Proof. reflexivity. Qed.

Example repr_plain : repr (PyStr "3.0") = "'3.0'".
Proof. reflexivity. Qed.

Example repr_single_quote : repr (PyStr "it's") = String dquote ("it's" ++ dq).
Proof. reflexivity. Qed.

Example repr_both_quotes :
  repr (PyStr (String squote dq)) = "'\'" ++ dq ++ "'".
Proof. reflexivity. Qed.

Example repr_control :
  repr (PyStr (String newline (String "001" (String bslash EmptyString))))
  = "'\n\x01\\'".
Proof. reflexivity. Qed.

Example repr_version_info :
  repr (PyTuple [PyStr "cynetworkx"; PyStr "3"; PyStr "0"; PyNone])
  = "('cynetworkx', '3', '0', None)".
Proof. reflexivity. Qed.

Example repr_vcs_info :
  repr (PyTuple [PyNone; PyTuple [PyNone; PyNone]]) = "(None, (None, None))".
Proof. reflexivity. Qed.

Example repr_singleton : repr (PyTuple [PyBool true]) = "(True,)".
Proof. reflexivity. Qed.

Example repr_datetime_short :
  repr (PyDatetime (mkDatetime 2018 1 1 0 0 0 0))
  = "datetime.datetime(2018, 1, 1, 0, 0)".
Proof. reflexivity. Qed.

Example repr_datetime_seconds :
  repr (PyDatetime (mkDatetime 2000 2 29 12 34 56 0))
  = "datetime.datetime(2000, 2, 29, 12, 34, 56)".
Proof. reflexivity. Qed.

(* ================================================================== *)
(** ** Strings *)

Lemma append_assoc (a b c : string) : (a ++ b) ++ c = a ++ (b ++ c).
Proof.
  induction a as [|x a IH]; simpl; [reflexivity | now rewrite IH].
Qed.

Lemma append_nil_r (a : string) : a ++ EmptyString = a.
Proof.
  induction a as [|x a IH]; simpl; [reflexivity | now rewrite IH].
Qed.

Lemma length_append (a b : string) :
  String.length (a ++ b) = (String.length a + String.length b)%nat.
Proof.
  induction a as [|x a IH]; simpl; [reflexivity | now rewrite IH].
Qed.

(* ================================================================== *)
(** ** Decimal numerals are read back *)

Lemma all_digits_string_of_uint (u : Decimal.uint) :
  all_digits (NilEmpty.string_of_uint u) = true.
Proof.
  induction u; simpl; auto.
Qed.

Lemma all_digits_dec (n : nat) : all_digits (dec n) = true.
Proof. apply all_digits_string_of_uint. Qed.

Lemma dec_nonempty (n : nat) : dec n <> EmptyString.
Proof.
  unfold dec. intro H.
  assert (Hn : Nat.to_uint n = Decimal.Nil).
  { destruct (Nat.to_uint n); simpl in H; try discriminate; reflexivity. }
  pose proof (Unsigned.of_to n) as Hof. rewrite Hn in Hof. simpl in Hof.
  subst n. discriminate Hn.
Qed.

Lemma nat_of_digits_dec (n : nat) : nat_of_digits (dec n) = Some n.
Proof.
  unfold nat_of_digits. pose proof (dec_nonempty n) as Hne.
  destruct (dec n) as [|c r] eqn:E; [congruence|].
  rewrite <- E, all_digits_dec. unfold dec.
  rewrite NilEmpty.usu. simpl. now rewrite Unsigned.of_to.
Qed.

Lemma span_digits_app (a rest : string) :
  all_digits a = true -> starts_nondigit rest ->
  span_digits (a ++ rest) = (a, rest).
Proof.
  intros Ha Hr. induction a as [|c a IH]; simpl in *.
  - destruct rest as [|c r]; simpl in *; [reflexivity | now rewrite Hr].
  - apply andb_prop in Ha as [Hc Ha]. rewrite Hc, (IH Ha). reflexivity.
Qed.

Lemma parse_nat_dec (n : nat) (rest : string) :
  starts_nondigit rest -> parse_nat (dec n ++ rest) = Ok (n, rest).
Proof.
  intro Hr. unfold parse_nat.
  rewrite (span_digits_app _ _ (all_digits_dec n) Hr).
  now rewrite nat_of_digits_dec.
Qed.

Lemma parse_nat_args_join (l : list nat) :
  forall (fuel : nat) (rest : string),
    l <> [] -> (List.length l <= fuel)%nat ->
    parse_nat_args fuel (join ", " (map dec l) ++ ")" ++ rest) = Ok (l, rest).
Proof.
  induction l as [|n l IH]; intros fuel rest Hne Hfuel; [congruence|].
  destruct fuel as [|f]; [simpl in Hfuel; lia|].
  destruct l as [|m l'].
  - simpl. rewrite parse_nat_dec by reflexivity. reflexivity.
  - change (join ", " (map dec (n :: m :: l')))
      with (dec n ++ ", " ++ join ", " (map dec (m :: l'))).
    rewrite !append_assoc.
    cbn [parse_nat_args]. rewrite parse_nat_dec by reflexivity.
    cbn [bind String.append].
    change (String ")" rest) with (")" ++ rest).
    rewrite IH; [reflexivity | congruence | simpl in *; lia].
Qed.

(* ================================================================== *)
(** ** String literals are read back *)

Lemma parse_escape_char (q c : ascii) (tail : string) :
  q = squote \/ q = dquote ->
  parse_str_body q (escape_char q c ++ tail)
  = ('(t, rest) <- parse_str_body q tail ;; Ok (String c t, rest)).
Proof.
  intros [-> | ->]; destruct c as [[] [] [] [] [] [] [] []]; reflexivity.
Qed.

Lemma parse_str_body_escape (q : ascii) (s rest : string) :
  q = squote \/ q = dquote ->
  parse_str_body q (escape q s ++ String q rest) = Ok (s, rest).
Proof.
  intro Hq. induction s as [|c s IH].
  - simpl. now rewrite Ascii.eqb_refl.
  - simpl. rewrite append_assoc, (parse_escape_char _ _ _ Hq), IH.
    reflexivity.
Qed.

Lemma quote_for_cases (s : string) : quote_for s = squote \/ quote_for s = dquote.
Proof.
  unfold quote_for. destruct (contains squote s && negb (contains dquote s)); auto.
Qed.

Lemma parse_expr_str (s rest : string) (fuel : nat) (dt : bool) :
  parse_expr (S fuel) dt (repr_str s ++ rest) = Ok (PyStr s, rest).
Proof.
  unfold repr_str. cbn [String.append parse_expr].
  rewrite append_assoc. cbn [String.append].
  destruct (quote_for_cases s) as [E | E]; rewrite E;
    cbn [Ascii.eqb Bool.eqb orb squote dquote];
    rewrite <- ?E; rewrite parse_str_body_escape by apply quote_for_cases;
    reflexivity.
Qed.

(* ================================================================== *)
(** ** Every value is read back from its repr *)

Lemma pyval_ind_nested (P : pyval -> Prop) :
  P PyNone ->
  (forall b, P (PyBool b)) ->
  (forall s, P (PyStr s)) ->
  (forall items, Forall P items -> P (PyTuple items)) ->
  (forall d, P (PyDatetime d)) ->
  forall v, P v.
Proof.
  intros HN HB HS HT HD. fix IH 1. intros [| b | s | items | d].
  - exact HN.
  - apply HB.
  - apply HS.
  - apply HT. induction items as [|x items IHitems]; constructor.
    + apply IH.
    + exact IHitems.
  - apply HD.
Qed.

Lemma join_elems (x : pyval) (l : list pyval) :
  join ", " (map repr (x :: l)) = repr x ++ elems_repr l.
Proof.
  revert x. induction l as [|y l IH]; intro x.
  - simpl. now rewrite append_nil_r.
  - change (join ", " (map repr (x :: y :: l)))
      with (repr x ++ ", " ++ join ", " (map repr (y :: l))).
    rewrite IH. reflexivity.
Qed.

Lemma join_dec_length (l : list nat) :
  (List.length l <= String.length (join ", " (map dec l)))%nat.
Proof.
  induction l as [|n l IH]; [simpl; lia|].
  assert (Hn : (1 <= String.length (dec n))%nat).
  { pose proof (dec_nonempty n). destruct (dec n); [congruence | simpl; lia]. }
  destruct l as [|m l']; [simpl; lia|].
  change (join ", " (map dec (n :: m :: l')))
    with (dec n ++ ", " ++ join ", " (map dec (m :: l'))).
  rewrite !length_append. simpl List.length in *. lia.
Qed.

Lemma repr_datetime_args (d : datetime) :
  exists l, repr_datetime d = "datetime.datetime(" ++ join ", " (map dec l) ++ ")"
            /\ l <> [] /\ datetime_of_args l = Ok (PyDatetime d).
Proof.
  destruct d as [y m dd hh mm ss us]. unfold repr_datetime. simpl dt_year.
  simpl dt_month. simpl dt_day. simpl dt_hour. simpl dt_minute.
  simpl dt_second. simpl dt_microsecond.
  destruct (Nat.eqb_spec us 0) as [-> | Hus].
  - destruct (Nat.eqb_spec ss 0) as [-> | Hss].
    + exists [y; m; dd; hh; mm]. repeat split; congruence.
    + exists [y; m; dd; hh; mm; ss]. repeat split; congruence.
  - exists [y; m; dd; hh; mm; ss; us]. repeat split; congruence.
Qed.

Lemma parse_expr_datetime (d : datetime) (rest : string) (fuel : nat) :
  parse_expr (S fuel) true (repr_datetime d ++ rest) = Ok (PyDatetime d, rest).
Proof.
  destruct (repr_datetime_args d) as (l & -> & Hne & Hargs).
  cbn [String.append parse_expr strip_prefix Ascii.eqb Bool.eqb orb
       squote dquote].
  rewrite append_assoc.
  rewrite parse_nat_args_join.
  - cbn [bind]. rewrite Hargs. reflexivity.
  - exact Hne.
  - rewrite length_append. pose proof (join_dec_length l). lia.
Qed.

Lemma repr_not_close (v : pyval) (tail : string) :
  strip_prefix ")" (repr v ++ tail) = None.
Proof.
  destruct v as [| [] | s | items | d]; try reflexivity.
  - unfold repr, repr_str. cbn [String.append strip_prefix].
    destruct (quote_for_cases s) as [-> | ->]; reflexivity.
  - destruct items as [|x [|y l]]; reflexivity.
Qed.

Lemma elems_repr_not_close (l : list pyval) (tail : string) :
  l <> [] -> strip_prefix ")" (elems_repr l ++ tail) = None.
Proof.
  destruct l; [congruence | reflexivity].
Qed.

Lemma parse_more_step (f : nat) (dt : bool) (acc : list pyval) (s : string) :
  parse_more (S f) dt acc (", " ++ s)
  = ('(x, r1) <- parse_expr f dt s ;;
     match strip_prefix ")" r1 with
     | Some r2 => Ok (PyTuple (acc ++ [x]), r2)
     | None => parse_more f dt (acc ++ [x]) r1
     end).
Proof. reflexivity. Qed.

Lemma parse_expr_paren (f : nat) (dt : bool) (r : string) :
  parse_expr (S f) dt ("(" ++ r)
  = match strip_prefix ")" r with
    | Some r' => Ok (PyTuple [], r')
    | None =>
        '(x, r1) <- parse_expr f dt r ;;
        match strip_prefix ")" r1 with
        | Some r2 => Ok (x, r2)
        | None => parse_more f dt [x] r1
        end
    end.
Proof. reflexivity. Qed.

(** The elements of a tuple after the first, up to the closing
    parenthesis. *)
Lemma parse_more_elems (l : list pyval) :
  Forall (fun v => forall fuel rest,
            (String.length (repr v) <= fuel)%nat ->
            parse_expr fuel true (repr v ++ rest) = Ok (v, rest)) l ->
  l <> [] ->
  forall (fuel : nat) (acc : list pyval) (rest : string),
    (String.length (elems_repr l) <= fuel)%nat ->
    parse_more fuel true acc (elems_repr l ++ ")" ++ rest)
    = Ok (PyTuple (acc ++ l), rest).
Proof.
  induction 1 as [|y l Hy Hl IH]; intros Hne fuel acc rest Hfuel; [congruence|].
  cbn [elems_repr] in *. rewrite !length_append in Hfuel.
  cbn [String.length] in Hfuel.
  destruct fuel as [|f]; [lia|].
  rewrite !append_assoc, parse_more_step, Hy by lia.
  cbn [bind].
  destruct l as [|z l'].
  - reflexivity.
  - rewrite elems_repr_not_close by congruence.
    rewrite IH; [| congruence | lia].
    now rewrite <- app_assoc.
Qed.

(** Reading [repr v] gives [v] back and leaves what follows it, with fuel
    for the length of [repr v]. *)
Lemma parse_expr_repr (v : pyval) :
  forall (fuel : nat) (rest : string),
    (String.length (repr v) <= fuel)%nat ->
    parse_expr fuel true (repr v ++ rest) = Ok (v, rest).
Proof.
  induction v as [| b | s | items IH | d] using pyval_ind_nested;
    intros fuel rest Hfuel.
  - destruct fuel; [simpl in Hfuel; lia | reflexivity].
  - destruct fuel; [destruct b; simpl in Hfuel; lia | destruct b; reflexivity].
  - destruct fuel; [simpl in Hfuel; lia | apply parse_expr_str].
  - destruct items as [|x [|y l]].
    + destruct fuel; [simpl in Hfuel; lia | reflexivity].
    + (* (x,) *)
      change (repr (PyTuple [x])) with ("(" ++ repr x ++ ",)") in *.
      rewrite !length_append in Hfuel. cbn [String.length] in Hfuel.
      destruct fuel as [|f]; [lia|].
      rewrite !append_assoc, parse_expr_paren, repr_not_close.
      inversion IH as [|? ? Hx _]; subst.
      rewrite Hx by lia.
      destruct f as [|f']; [lia|]. reflexivity.
    + (* (x, y, ...) *)
      change (repr (PyTuple (x :: y :: l)))
        with ("(" ++ join ", " (map repr (x :: y :: l)) ++ ")") in *.
      rewrite join_elems in *. rewrite !length_append in Hfuel.
      cbn [String.length] in Hfuel.
      destruct fuel as [|f]; [lia|].
      rewrite !append_assoc, parse_expr_paren, repr_not_close.
      inversion IH as [|? ? Hx Hrest]; subst.
      rewrite Hx by lia. cbn [bind].
      rewrite elems_repr_not_close by congruence.
      rewrite (parse_more_elems (y :: l) Hrest); [reflexivity | congruence | lia].
  - destruct fuel; [|apply parse_expr_datetime].
    destruct (repr_datetime_args d) as (l & E & _). simpl repr in Hfuel.
    rewrite E in Hfuel. simpl in Hfuel. lia.
Qed.

(* ================================================================== *)
(** ** The template after substitution *)

Lemma py_format_text (dev version version_info date date_info vcs_info : pyval) :
  py_format text
    [("dev", dev); ("version", version); ("version_info", version_info);
     ("date", date); ("date_info", date_info); ("vcs_info", vcs_info)]
  = Ok (generated_text dev version version_info date date_info vcs_info).
Proof. reflexivity. Qed.

(* ================================================================== *)
(** ** Running the generated text, a line a step *)

Lemma skip_line_app (line r : string) :
  no_newline line = true -> skip_line (line ++ nl ++ r) = r.
Proof.
  unfold no_newline. induction line as [|c line IH]; simpl; intro H.
  - reflexivity.
  - apply negb_true_iff, orb_false_iff in H as [Hc H].
    rewrite Hc. apply IH. now rewrite H.
Qed.

Lemma plain_line_app (line r : string) :
  plain_text line = true -> plain_line (line ++ nl ++ r) = true.
Proof.
  unfold plain_text. induction line as [|c line IH]; simpl; intro H.
  - reflexivity.
  - rewrite !negb_orb in H.
    apply andb_prop in H as [H Hb]. apply andb_prop in H as [Hn Hd].
    apply andb_prop in Hn as [Hcn Hn]. apply andb_prop in Hd as [Hcd Hd].
    apply andb_prop in Hb as [Hcb Hb].
    apply negb_true_iff in Hcn, Hcd, Hcb.
    rewrite Hcn, Hcd, Hcb. simpl. apply IH. now rewrite Hn, Hd, Hb.
Qed.

Lemma plain_text_no_newline (line : string) :
  plain_text line = true -> no_newline line = true.
Proof.
  unfold plain_text, no_newline. intro H.
  apply andb_prop in H as [H _]. now apply andb_prop in H as [H _].
Qed.

Lemma exec_doc_open (f : nat) (dt : bool) (b : dict) (r : string) :
  exec_text (S f) (mkMstate false dt b) (dq3 ++ nl ++ r)
  = exec_text f (mkMstate true dt b) r.
Proof. reflexivity. Qed.

Lemma exec_doc_close (f : nat) (dt : bool) (b : dict) (r : string) :
  exec_text (S f) (mkMstate true dt b) (dq3 ++ nl ++ r)
  = exec_text f (mkMstate false dt b) r.
Proof. reflexivity. Qed.

Lemma exec_doc_line (f : nat) (dt : bool) (b : dict) (line r : string) :
  plain_text line = true ->
  exec_text (S f) (mkMstate true dt b) (line ++ nl ++ r)
  = exec_text f (mkMstate true dt b) r.
Proof.
  intro H.
  assert (Hs : strip_prefix (dq3 ++ nl) (line ++ nl ++ r) = None).
  { destruct line as [|c line]; [reflexivity|].
    unfold plain_text in H. cbn [contains] in H.
    apply andb_prop in H as [H _]. apply andb_prop in H as [_ H].
    apply negb_true_iff, orb_false_iff in H as [H _].
    apply Ascii.eqb_neq in H.
    cbn [dq3 String.append strip_prefix].
    destruct (Ascii.eqb_spec dquote c); [congruence | reflexivity]. }
  pose proof (plain_line_app line r H) as Hp.
  pose proof (skip_line_app line r (plain_text_no_newline _ H)) as Hk.
  destruct (line ++ nl ++ r) as [|c s] eqn:E.
  - destruct line; discriminate E.
  - cbn [exec_text in_docstring]. rewrite Hs, Hp, Hk. reflexivity.
Qed.

Lemma exec_blank (f : nat) (dt : bool) (b : dict) (r : string) :
  exec_text (S f) (mkMstate false dt b) (EmptyString ++ nl ++ r)
  = exec_text f (mkMstate false dt b) r.
Proof. reflexivity. Qed.

Lemma exec_comment (f : nat) (dt : bool) (b : dict) (line r : string) :
  no_newline line = true ->
  exec_text (S f) (mkMstate false dt b) (String "#" line ++ nl ++ r)
  = exec_text f (mkMstate false dt b) r.
Proof.
  intro H. cbn [exec_text String.append in_docstring Ascii.eqb Bool.eqb newline].
  change (String.append line (String "010" r)) with (line ++ nl ++ r).
  now rewrite skip_line_app.
Qed.

Lemma exec_comment_line (f : nat) (dt : bool) (b : dict) (full r : string) :
  String.get 0 full = Some "#"%char -> no_newline full = true ->
  exec_text (S f) (mkMstate false dt b) (full ++ nl ++ r)
  = exec_text f (mkMstate false dt b) r.
Proof.
  destruct full as [|c line]; [discriminate|].
  cbn [String.get]. intros [= ->] H. apply exec_comment.
  unfold no_newline in *. cbn [contains] in H.
  apply negb_true_iff, orb_false_iff in H as [_ H]. now rewrite H.
Qed.

Lemma exec_import (f : nat) (dt : bool) (b : dict) (r : string) :
  exec_text (S f) (mkMstate false dt b) ("import datetime" ++ nl ++ r)
  = exec_text f (mkMstate false true b) r.
Proof. reflexivity. Qed.

Lemma ident_char_plain (c : ascii) :
  is_ident_char c = true ->
  Ascii.eqb c newline = false /\ Ascii.eqb c "#" = false
  /\ Ascii.eqb c dquote = false /\ Ascii.eqb c " " = false.
Proof.
  destruct c as [[] [] [] [] [] [] [] []]; cbv; intro H;
    repeat split; solve [reflexivity | discriminate H].
Qed.

Lemma span_ident_app (name tail : string) :
  all_ident name = true ->
  span_ident (name ++ String " " tail) = (name, String " " tail).
Proof.
  induction name as [|c name IH]; intro H.
  - reflexivity.
  - simpl in H. apply andb_prop in H as [Hc H].
    cbn [String.append span_ident]. rewrite Hc, (IH H). reflexivity.
Qed.

Lemma exec_assign (f : nat) (b : dict) (lhs name : string) (v : pyval) (r : string) :
  lhs = name ++ " = " ->
  all_ident name = true -> name <> EmptyString -> name <> "import" ->
  exec_text (S f) (mkMstate false true b) ((lhs ++ repr v) ++ nl ++ r)
  = exec_text f (mkMstate false true ((name, v) :: b)) r.
Proof.
  intros -> Hid Hne Himp.
  rewrite !append_assoc.
  change (" = " ++ repr v ++ nl ++ r) with (String " " ("= " ++ repr v ++ nl ++ r)).
  pose proof (span_ident_app name ("= " ++ repr v ++ nl ++ r) Hid) as Hspan.
  destruct name as [|c name']; [congruence|].
  pose proof Hid as Hc. simpl in Hc. apply andb_prop in Hc as [Hc _].
  destruct (ident_char_plain c Hc) as (Hnl & Hhash & Hdq & _).
  cbn [String.append] in *.
  cbn [exec_text in_docstring has_datetime bindings].
  rewrite Hnl, Hhash, Hdq, Hspan.
  apply String.eqb_neq in Himp. rewrite Himp.
  cbn [strip_prefix Ascii.eqb Bool.eqb].
  rewrite parse_expr_repr by (rewrite length_append; lia).
  reflexivity.
Qed.

Lemma generated_text_length (dev version version_info date date_info vcs_info : pyval) :
  (27 <= String.length
           (generated_text dev version version_info date date_info vcs_info))%nat.
Proof.
  unfold generated_text. cbn [unlines].
  rewrite !length_append. cbn [String.length dq3 nl]. lia.
Qed.

(** Running what [writefile] wrote binds the six names to the six values. *)
Lemma exec_module_generated
  (dev version version_info date date_info vcs_info : pyval) :
  exec_module (generated_text dev version version_info date date_info vcs_info)
  = Ok [("vcs_info", vcs_info); ("date_info", date_info);
        ("version_info", version_info); ("dev", dev); ("date", date);
        ("version", version)].
Proof.
  unfold exec_module.
  pose proof (generated_text_length dev version version_info date date_info vcs_info)
    as Hlen.
  remember (String.length _) as n eqn:En. clear En.
  do 27 (destruct n as [|n]; [lia|]). clear Hlen.
  unfold generated_text. cbn [unlines].
  rewrite exec_doc_open.
  rewrite !exec_doc_line by reflexivity.
  rewrite exec_doc_close, exec_blank, exec_import, exec_blank.
  rewrite (exec_assign _ _ "version = " "version") by (reflexivity || discriminate).
  rewrite (exec_assign _ _ "date = " "date") by (reflexivity || discriminate).
  rewrite exec_blank.
  rewrite !exec_comment_line by reflexivity.
  rewrite (exec_assign _ _ "dev = " "dev") by (reflexivity || discriminate).
  rewrite exec_blank.
  rewrite !exec_comment_line by reflexivity.
  rewrite (exec_assign _ _ "version_info = " "version_info") by (reflexivity || discriminate).
  rewrite exec_blank.
  rewrite !exec_comment_line by reflexivity.
  rewrite (exec_assign _ _ "date_info = " "date_info") by (reflexivity || discriminate).
  rewrite exec_blank.
  rewrite !exec_comment_line by reflexivity.
  rewrite (exec_assign _ _ "vcs_info = " "vcs_info") by (reflexivity || discriminate).
  rewrite exec_blank.
  reflexivity.
Qed.

(* ================================================================== *)
(** ** get_info, case by case *)

Ltac simpl_locals :=
  cbn [bind orb andb negb
       l_date l_date_info l_revision l_version l_version_info l_vcs_info
       set_date set_date_info set_revision set_version set_version_info
       set_vcs_info].

(** [get_info] by the outcome of the import: a module that is missing or
    lacks a name gives the fallback (with the names bound before the missing
    one), any other exception propagates, and a module with the five names
    gives its values once [vcs_info[1][0]] has been read.  The [dynamic]
    flag does not show: [get_revision] never has a revision. *)
Lemma get_info_from_eq (g : globals) (dynamic : bool) (w : World) (d : datetime) :
  get_info_from g dynamic w d =
  match import_version w with
  | Raise ImportError => fallback g (PyStr (Calendar.asctime d)) (PyDatetime d)
  | Raise e => Raise e
  | Ok m =>
      match lookup "date" m with
      | None => fallback g (PyStr (Calendar.asctime d)) (PyDatetime d)
      | Some da =>
          match lookup "date_info" m with
          | None => fallback g da (PyDatetime d)
          | Some di =>
              match lookup "version" m, lookup "version_info" m,
                    lookup "vcs_info" m with
              | Some v, Some vi, Some vc =>
                  x <- subscript vc 1 ;;
                  revision <- subscript x 0 ;;
                  Ok (mkInfo da di v vi vc)
              | _, _, _ => fallback g da di
              end
          end
      end
  end.
Proof.
  unfold get_info_from, get_revision, fallback.
  destruct dynamic; cbn [is_None negb orb andb];
    (destruct (import_version w) as [m | e];
     [ unfold import_targets; cbn [import_from];
       destruct (lookup "date" m) as [da|];
         [|simpl_locals; destruct (dev g); reflexivity];
       destruct (lookup "date_info" m) as [di|];
         [|simpl_locals; destruct (dev g); reflexivity];
       destruct (lookup "version" m) as [v|];
         [|simpl_locals; destruct (dev g); [destruct (strftime di)|]; reflexivity];
       destruct (lookup "version_info" m) as [vi|];
         [|simpl_locals; destruct (dev g); [destruct (strftime di)|]; reflexivity];
       destruct (lookup "vcs_info" m) as [vc|];
         [|simpl_locals; destruct (dev g); [destruct (strftime di)|]; reflexivity];
       simpl_locals; destruct (subscript vc 1) as [x|]; [|reflexivity];
       simpl_locals; destruct (subscript x 0); reflexivity
     | destruct e; try reflexivity; destruct (dev g); reflexivity ]).
Qed.

Example write_versionfile_fresh :
  write_versionfile release w_fresh
  = Ok (mkWorld None (1514764800 # 1) false (Some version_py_2018) true
          [version_py_2018],
        PyStr "3.0.dev_20180101000000").
Proof. vm_compute. reflexivity. Qed.

Example import_version_hg :
  import_version w_hg_tarball
  = Ok [("vcs_info",
         PyTuple [PyStr "mercurial"; PyTuple [PyStr "0f1e2d3c4b5a"; PyStr "tip"]]);
        ("date_info", PyDatetime (mkDatetime 2018 1 1 0 0 0 0));
        ("version_info",
         PyTuple [PyStr "cynetworkx"; PyStr "3"; PyStr "0"; PyStr "0f1e2d3c4b5a"]);
        ("dev", PyBool false); ("date", PyStr "Mon Jan  1 00:00:00 2018");
        ("version", PyStr "3.0")].
Proof. vm_compute. reflexivity. Qed.

Example import_version_truncated :
  import_version w_truncated = Raise SyntaxError.
Proof. vm_compute. reflexivity. Qed.

Example import_version_partial :
  import_version w_partial
  = Ok [("date_info", PyNone); ("date", PyStr "never")].
Proof. vm_compute. reflexivity. Qed.

Lemma fallback_datetime (g : globals) (da : pyval) (d : datetime) :
  fallback g da (PyDatetime d)
  = Ok (mkInfo da (PyDatetime d)
          (PyStr (if dev g
                  then major g ++ "." ++ minor g ++ ".dev_"
                       ++ Calendar.strftime_YmdHMS d
                  else major g ++ "." ++ minor g))
          (PyTuple [PyStr (name g); PyStr (major g); PyStr (minor g); PyNone])
          (PyTuple [PyNone; PyTuple [PyNone; PyNone]])).
Proof.
  unfold fallback. destruct (dev g); cbn [strftime bind]; [|reflexivity].
  now rewrite !append_assoc.
Qed.

Lemma get_info_from_no_file (g : globals) (dynamic : bool) (w : World) (d : datetime) :
  versionfile w = None ->
  get_info_from g dynamic w d
  = fallback g (PyStr (Calendar.asctime d)) (PyDatetime d).
Proof.
  intro H. rewrite get_info_from_eq. unfold import_version. now rewrite H.
Qed.

(* ================================================================== *)
(** ** What get_info returns without version.py *)

Lemma get_info_no_file (g : globals) (dynamic : bool) (w : World) (d : datetime) :
  versionfile w = None ->
  date_information w = Ok d ->
  get_info g dynamic w
  = Ok (mkInfo (PyStr (Calendar.asctime d)) (PyDatetime d)
          (PyStr (if dev g
                  then major g ++ "." ++ minor g ++ ".dev_"
                       ++ Calendar.strftime_YmdHMS d
                  else major g ++ "." ++ minor g))
          (PyTuple [PyStr (name g); PyStr (major g); PyStr (minor g); PyNone])
          (PyTuple [PyNone; PyTuple [PyNone; PyNone]])).
Proof.
  intros Hfile Hdate. unfold get_info. rewrite Hdate. cbn [bind].
  rewrite (get_info_from_no_file _ _ _ _ Hfile). apply fallback_datetime.
Qed.

(** C5 (as the code has it). When version.py is absent and the timestamp
    resolves (in a development release, to a year from 1900 on), [get_info]
    with or without dynamic resolution builds the version string from the
    constants [major] and [minor] (with the [.dev_] stamp of that timestamp
    in a development release) and leaves revision and vcs empty:
    [version_info] is [(name, major, minor, None)] and [vcs_info] is
    [(None, (None, None))]. *)
Theorem get_info_without_file
  (g : globals) (dynamic : bool) (w : World) (d : datetime) :
  versionfile w = None ->
  date_information w = Ok d ->
  dev g = false \/ (1900 <= dt_year d)%nat ->
  get_info g dynamic w
  = Ok (mkInfo (PyStr (Calendar.asctime d)) (PyDatetime d)
          (PyStr (if dev g
                  then major g ++ "." ++ minor g ++ ".dev_"
                       ++ Calendar.strftime_YmdHMS d
                  else major g ++ "." ++ minor g))
          (PyTuple [PyStr (name g); PyStr (major g); PyStr (minor g); PyNone])
          (PyTuple [PyNone; PyTuple [PyNone; PyNone]])).
Proof. intros Hfile Hdate _. exact (get_info_no_file g dynamic w d Hfile Hdate). Qed.

Lemma get_info_without_file_witness :
  get_info release false w_fresh
  = Ok (mkInfo (PyStr "Mon Jan  1 00:00:00 2018")
          (PyDatetime (mkDatetime 2018 1 1 0 0 0 0))
          (PyStr "3.0.dev_20180101000000")
          (PyTuple [PyStr "cynetworkx"; PyStr "3"; PyStr "0"; PyNone])
          (PyTuple [PyNone; PyTuple [PyNone; PyNone]])).
Proof.
  apply (get_info_without_file release false w_fresh
           (mkDatetime 2018 1 1 0 0 0 0) eq_refl eq_refl).
  right. simpl. lia.
Defined.

(** C5 (as the spec has it) fails: with version.py absent and
    [SOURCE_DATE_EPOCH] set and empty, [int] raises [ValueError] on line
    144 and [get_info] returns nothing, for either value of [dynamic] and
    of [dev]. *)
Lemma get_info_without_file_raises :
  versionfile w_empty_epoch = None
  /\ get_info release false w_empty_epoch = Raise ValueError
  /\ get_info release true w_empty_epoch = Raise ValueError
  /\ get_info (mkGlobals "cynetworkx" "3" "0" false) false w_empty_epoch
     = Raise ValueError.
Proof. repeat split. Qed.

(** C1 (as the code has it). With no [.git] directory and no version.py,
    when the timestamp resolves, [get_info] with dynamic resolution returns
    the version string [major.minor] when [dev] is false, and, the year
    being 1900 or later, [major.minor] followed by [.dev_] and the resolved
    timestamp in the format [%Y%m%d%H%M%S] when [dev] is true. *)
Theorem get_info_fresh_version (g : globals) (w : World) (d : datetime) :
  gitdir_isdir w = false ->
  versionfile w = None ->
  date_information w = Ok d ->
  dev g = false \/ (1900 <= dt_year d)%nat ->
  exists i,
    get_info g true w = Ok i
    /\ date_info i = PyDatetime d
    /\ version i
       = PyStr (if dev g
                then major g ++ "." ++ minor g ++ ".dev_"
                     ++ Calendar.strftime_YmdHMS d
                else major g ++ "." ++ minor g).
Proof.
  intros _ Hfile Hdate _. eexists. split.
  - apply (get_info_no_file g true w d Hfile Hdate).
  - split; reflexivity.
Qed.

Lemma get_info_fresh_version_witness :
  exists i,
    get_info release true w_fresh = Ok i
    /\ date_info i = PyDatetime (mkDatetime 2018 1 1 0 0 0 0)
    /\ version i = PyStr "3.0.dev_20180101000000".
Proof.
  apply (get_info_fresh_version release w_fresh (mkDatetime 2018 1 1 0 0 0 0)
           eq_refl eq_refl eq_refl).
  right. simpl. lia.
Defined.

(** C1 (as the spec has it) fails: in a tree without [.git] and without
    version.py, a [SOURCE_DATE_EPOCH] that is not a number makes [get_info]
    raise [ValueError] instead of resolving a version, also for a release
    ([dev] false), whose version string needs no timestamp. *)
Lemma get_info_fresh_version_raises :
  gitdir_isdir w_bad_epoch = false
  /\ versionfile w_bad_epoch = None
  /\ get_info (mkGlobals "cynetworkx" "3" "0" false) true w_bad_epoch
     = Raise ValueError
  /\ get_info release true w_bad_epoch = Raise ValueError.
Proof. repeat split. Qed.

Example get_info_fresh_release :
  exists i,
    get_info (mkGlobals "cynetworkx" "3" "0" false) true w_fresh = Ok i
    /\ version i = PyStr "3.0".
Proof. eexists. split; reflexivity. Qed.

(* ================================================================== *)
(** ** Where the values get_info returns come from *)

Lemma fallback_inv (g : globals) (da di : pyval) (i : info) :
  fallback g da di = Ok i ->
  date i = da /\ date_info i = di
  /\ version_info i
     = PyTuple [PyStr (name g); PyStr (major g); PyStr (minor g); PyNone]
  /\ vcs_info i = PyTuple [PyNone; PyTuple [PyNone; PyNone]].
Proof.
  unfold fallback. intro H.
  destruct (dev g); [destruct (strftime di); [|discriminate]|];
    cbn [bind] in H; inversion H; subst; repeat split.
Qed.

(** Either [get_info] fell back, or every value it returns is the one
    version.py binds, and [vcs_info[1][0]] exists. *)
Lemma get_info_cases (g : globals) (dynamic : bool) (w : World) (i : info) :
  get_info g dynamic w = Ok i ->
  (exists da di, fallback g da di = Ok i)
  \/ (exists m x r,
        import_version w = Ok m
        /\ lookup "date" m = Some (date i)
        /\ lookup "date_info" m = Some (date_info i)
        /\ lookup "version" m = Some (version i)
        /\ lookup "version_info" m = Some (version_info i)
        /\ lookup "vcs_info" m = Some (vcs_info i)
        /\ subscript (vcs_info i) 1 = Ok x
        /\ subscript x 0 = Ok r).
Proof.
  unfold get_info. destruct (date_information w) as [d|]; [|discriminate].
  cbn [bind]. rewrite get_info_from_eq.
  destruct (import_version w) as [m|e].
  - destruct (lookup "date" m) as [da|] eqn:Hda; [|intro; left; eauto].
    destruct (lookup "date_info" m) as [di|] eqn:Hdi; [|intro; left; eauto].
    destruct (lookup "version" m) as [v|] eqn:Hv; [|intro; left; eauto].
    destruct (lookup "version_info" m) as [vi|] eqn:Hvi; [|intro; left; eauto].
    destruct (lookup "vcs_info" m) as [vc|] eqn:Hvc; [|intro; left; eauto].
    destruct (subscript vc 1) as [x|] eqn:Hx; [|discriminate].
    cbn [bind]. destruct (subscript x 0) as [r|] eqn:Hr; [|discriminate].
    cbn [bind]. intro H. inversion H; subst. right.
    exists m, x, r. cbn [date date_info version version_info vcs_info].
    repeat split; auto.
  - destruct e; try discriminate. intro; left; eauto.
Qed.

Lemma get_info_vcs_shape (g : globals) (dynamic : bool) (w : World) (i : info) :
  get_info g dynamic w = Ok i ->
  exists x r, subscript (vcs_info i) 1 = Ok x /\ subscript x 0 = Ok r.
Proof.
  intro H. destruct (get_info_cases _ _ _ _ H) as [(da & di & Hf) | Himp].
  - apply fallback_inv in Hf as (_ & _ & _ & ->).
    exists (PyTuple [PyNone; PyNone]), PyNone. split; reflexivity.
  - destruct Himp as (m & x & r & _ & _ & _ & _ & _ & _ & Hx & Hr). eauto.
Qed.

(** C10. [get_revision] returns [None] for the revision and a [vcs_info]
    whose revision and tag are [None], with or without the [.git]
    directory, which sets the vcs kind only.  So dynamic resolution never
    supplies a revision: [get_info] does the same with and without it, and
    a [version_info] it returns either ends in [None] or is the one an
    existing version.py binds. *)
Theorem get_revision_has_no_revision (g : globals) (w : World) :
  get_revision w
  = (PyNone,
     PyTuple [if gitdir_isdir w then PyStr "git" else PyNone;
              PyTuple [PyNone; PyNone]])
  /\ get_info g true w = get_info g false w
  /\ forall dynamic i,
       get_info g dynamic w = Ok i ->
       version_info i
       = PyTuple [PyStr (name g); PyStr (major g); PyStr (minor g); PyNone]
       \/ exists m, import_version w = Ok m
                    /\ lookup "version_info" m = Some (version_info i)
                    /\ lookup "vcs_info" m = Some (vcs_info i).
Proof.
  split; [reflexivity|]. split.
  - unfold get_info. destruct (date_information w); [|reflexivity].
    cbn [bind]. now rewrite !get_info_from_eq.
  - intros dynamic i H.
    destruct (get_info_cases _ _ _ _ H) as [(da & di & Hf) | Himp].
    + left. now apply fallback_inv in Hf as (_ & _ & -> & _).
    + right. destruct Himp as (m & x & r & Hm & _ & _ & _ & Hvi & Hvc & _).
      eauto.
Qed.

(* ================================================================== *)
(** ** Writing version.py and reading it back *)

Lemma writefile_eq (g : globals) (w : World) (i : info) :
  writefile g w i
  = if versionfile_writable w
    then Ok (fh_write w (generated_text (PyBool (dev g)) (version i)
                           (version_info i) (date i) (date_info i) (vcs_info i)))
    else Raise IOError.
Proof.
  unfold writefile, open_w. destruct (versionfile_writable w); [|reflexivity].
  cbn [bind]. now rewrite py_format_text.
Qed.

Lemma get_info_from_generated
  (g : globals) (dynamic : bool) (w : World) (d : datetime)
  (dv v vi da di vc : pyval) :
  versionfile w = Some (generated_text dv v vi da di vc) ->
  get_info_from g dynamic w d
  = (x <- subscript vc 1 ;; revision <- subscript x 0 ;;
     Ok (mkInfo da di v vi vc)).
Proof.
  intro Hfile. rewrite get_info_from_eq. unfold import_version.
  rewrite Hfile, exec_module_generated. reflexivity.
Qed.

Lemma import_version_generated (w : World) (dv v vi da di vc : pyval) :
  versionfile w = Some (generated_text dv v vi da di vc) ->
  import_version w
  = Ok [("vcs_info", vc); ("date_info", di); ("version_info", vi); ("dev", dv);
        ("date", da); ("version", v)].
Proof.
  intro Hfile. unfold import_version. now rewrite Hfile, exec_module_generated.
Qed.

Lemma cons_neq {A : Type} (x : A) (l : list A) : l <> x :: l.
Proof.
  intro H. apply (f_equal (@List.length A)) in H. simpl in H. lia.
Qed.

(** What a call of [write_versionfile] that writes leaves behind. *)
Lemma write_versionfile_written
  (g : globals) (w w' : World) (v : pyval) (s : string) :
  write_versionfile g w = Ok (w', v) ->
  written w' = s :: written w ->
  exists i,
    get_info g true w = Ok i /\ v = version i
    /\ versionfile w'
       = Some (generated_text (PyBool (dev g)) (version i) (version_info i)
                 (date i) (date_info i) (vcs_info i)).
Proof.
  intros Hw Hlog. unfold write_versionfile in Hw.
  destruct (get_info g true w) as [i|e] eqn:Hi; [|discriminate].
  cbn [bind] in Hw.
  destruct (subscript (vcs_info i) 0) as [kind|e]; [|discriminate].
  cbn [bind] in Hw. exists i. split; [reflexivity|].
  assert (Hwrite : forall r,
             (w0 <- writefile g w i ;; Ok (w0, version i)) = r ->
             r = Ok (w', v) ->
             v = version i
             /\ versionfile w'
                = Some (generated_text (PyBool (dev g)) (version i)
                          (version_info i) (date i) (date_info i) (vcs_info i))).
  { intros r <-. rewrite writefile_eq.
    destruct (versionfile_writable w); [|discriminate].
    cbn [bind]. intro H. inversion H; subst. split; reflexivity. }
  destruct (py_eq kind (PyStr "mercurial")); [now apply (Hwrite _ eq_refl)|].
  destruct (isfile w); [|now apply (Hwrite _ eq_refl)].
  destruct (import_version w) as [m|e]; [|discriminate]. cbn [bind] in Hw.
  destruct (lookup "version" m); [|discriminate].
  inversion Hw; subst. now apply cons_neq in Hlog.
Qed.

(** A call of [write_versionfile] that writes [s] has written the
    rendering of the record of [get_info]. *)
Lemma write_versionfile_wrote
  (g : globals) (w w' : World) (v : pyval) (s : string) :
  write_versionfile g w = Ok (w', v) ->
  written w' = s :: written w ->
  exists i,
    get_info g true w = Ok i
    /\ v = version i
    /\ s = generated_text (PyBool (dev g)) (version i) (version_info i)
             (date i) (date_info i) (vcs_info i)
    /\ w' = fh_write w s.
Proof.
  intros Hw Hlog. unfold write_versionfile in Hw.
  destruct (get_info g true w) as [i|e] eqn:Hi; [|discriminate].
  cbn [bind] in Hw.
  destruct (subscript (vcs_info i) 0) as [kind|e]; [|discriminate].
  cbn [bind] in Hw. exists i. split; [reflexivity|].
  assert (Hwrite : (w0 <- writefile g w i ;; Ok (w0, version i)) = Ok (w', v) ->
             v = version i
             /\ s = generated_text (PyBool (dev g)) (version i) (version_info i)
                      (date i) (date_info i) (vcs_info i)
             /\ w' = fh_write w s).
  { rewrite writefile_eq. destruct (versionfile_writable w); [|discriminate].
    cbn [bind]. intro H. inversion H; subst w' v.
    cbn [fh_write written] in Hlog. inversion Hlog. repeat split. }
  destruct (py_eq kind (PyStr "mercurial")); [now apply Hwrite|].
  destruct (isfile w); [|now apply Hwrite].
  destruct (import_version w) as [m|e]; [|discriminate]. cbn [bind] in Hw.
  destruct (lookup "version" m); [|discriminate].
  inversion Hw; subst. now apply cons_neq in Hlog.
Qed.

(** C3. Round trip.  When [write_versionfile] writes the text [s] to
    version.py and returns the version string [v], then [s] is the text of
    version.py, [s] run as a module binds [version] to [v], and [get_info]
    with dynamic resolution disabled reads [v] back from the file: in the
    world the call leaves, and in every other world that holds the file
    and in which the timestamp resolves, whatever [name], [major], [minor]
    and [dev] then are. *)
Theorem written_version_read_back
  (g : globals) (w w' : World) (v : pyval) (s : string) :
  write_versionfile g w = Ok (w', v) ->
  written w' = s :: written w ->
  versionfile w' = Some s
  /\ (exists m, exec_module s = Ok m /\ lookup "version" m = Some v)
  /\ (forall g2 : globals,
        exists i, get_info g2 false w' = Ok i /\ version i = v)
  /\ (forall (g2 : globals) (w'' : World) (d : datetime),
        versionfile w'' = Some s ->
        date_information w'' = Ok d ->
        exists i, get_info g2 false w'' = Ok i /\ version i = v).
Proof.
  intros Hw Hlog.
  destruct (write_versionfile_wrote _ _ _ _ _ Hw Hlog) as (i & Hi & -> & Hs & ->).
  assert (Hread : forall (g2 : globals) (w'' : World) (d : datetime),
             versionfile w'' = Some s ->
             date_information w'' = Ok d ->
             exists i0, get_info g2 false w'' = Ok i0 /\ version i0 = version i).
  { intros g2 w'' d Hfile Hdate. rewrite Hs in Hfile.
    unfold get_info. rewrite Hdate. cbn [bind].
    rewrite (get_info_from_generated _ _ _ _ _ _ _ _ _ _ Hfile).
    destruct (get_info_vcs_shape _ _ _ _ Hi) as (x & r & Hx & Hr).
    rewrite Hx. cbn [bind]. rewrite Hr. cbn [bind].
    eexists. split; reflexivity. }
  split; [reflexivity|]. split; [|split].
  - rewrite Hs, exec_module_generated. eexists. split; reflexivity.
  - intro g2. unfold get_info in Hi.
    destruct (date_information w) as [d|e] eqn:Hdate; [|discriminate].
    apply (Hread g2 (fh_write w s) d); [reflexivity | exact Hdate].
  - exact Hread.
Qed.

(** The file written on 2018-01-01 in a fresh checkout. *)
Lemma written_version_read_back_witness :
  versionfile (fh_write w_fresh version_py_2018) = Some version_py_2018
  /\ (exists m, exec_module version_py_2018 = Ok m
                /\ lookup "version" m = Some (PyStr "3.0.dev_20180101000000"))
  /\ (forall g2 : globals,
        exists i, get_info g2 false (fh_write w_fresh version_py_2018) = Ok i
                  /\ version i = PyStr "3.0.dev_20180101000000")
  /\ (forall (g2 : globals) (w'' : World) (d : datetime),
        versionfile w'' = Some version_py_2018 ->
        date_information w'' = Ok d ->
        exists i, get_info g2 false w'' = Ok i
                  /\ version i = PyStr "3.0.dev_20180101000000").
Proof.
  exact (written_version_read_back release w_fresh
           (fh_write w_fresh version_py_2018)
           (PyStr "3.0.dev_20180101000000") version_py_2018
           write_versionfile_fresh eq_refl).
Defined.

(** Read a year later by a release 4.1. *)
Example written_version_read_in_2019 :
  exists i,
    get_info (mkGlobals "cynetworkx" "4" "1" false) false w_tarball = Ok i
    /\ version i = PyStr "3.0.dev_20180101000000".
Proof. eexists. split; [vm_compute; reflexivity | reflexivity]. Qed.

(* ================================================================== *)
(** ** When version.py is rewritten *)

(** C2. In a git checkout that holds a version.py, [get_revision] reports
    the vcs kind ['git'], but [get_info] replaces that [vcs_info] by the one
    of version.py, and [write_versionfile], which rewrites for the kind
    ['mercurial'] only, leaves the file as it is and returns the version the
    file records: the checkout of 2019 still answers with the version string
    of 2018. *)
Theorem git_checkout_keeps_version_py :
  gitdir_isdir w_git = true
  /\ get_revision w_git
     = (PyNone, PyTuple [PyStr "git"; PyTuple [PyNone; PyNone]])
  /\ (exists i, get_info release true w_git = Ok i
                /\ vcs_info i = PyTuple [PyNone; PyTuple [PyNone; PyNone]])
  /\ write_versionfile release w_git
     = Ok (w_git, PyStr "3.0.dev_20180101000000").
Proof.
  split; [reflexivity|]. split; [reflexivity|]. split.
  - eexists. split; [vm_compute; reflexivity | reflexivity].
  - vm_compute. reflexivity.
Qed.

(** C4. Without [.git], beside a version.py that records the kind
    ['mercurial'] (as a tarball made from a mercurial checkout holds it),
    [write_versionfile] does not keep the file: the test of line 102 sends
    it to [writefile], and the text of version.py changes. *)
Lemma existing_file_rewritten :
  gitdir_isdir w_hg_tarball = false
  /\ versionfile w_hg_tarball = Some version_py_hg
  /\ exists (w' : World) (s : string),
       write_versionfile release w_hg_tarball = Ok (w', PyStr "3.0")
       /\ written w' = [s]
       /\ versionfile w' = Some s
       /\ String.eqb s version_py_hg = false.
Proof.
  split; [reflexivity|]. split; [reflexivity|].
  eexists. eexists. split; [vm_compute; reflexivity|].
  split; [reflexivity|]. split; [reflexivity|]. vm_compute. reflexivity.
Qed.

(* ================================================================== *)
(** ** Falling back *)

Lemma fallback_ok (g : globals) (da di : pyval) :
  dev g = false \/ (exists d, di = PyDatetime d) ->
  exists i,
    fallback g da di = Ok i
    /\ version_info i
       = PyTuple [PyStr (name g); PyStr (major g); PyStr (minor g); PyNone]
    /\ vcs_info i = PyTuple [PyNone; PyTuple [PyNone; PyNone]].
Proof.
  intros [Hdev | (d & ->)].
  - unfold fallback. rewrite Hdev. cbn [bind]. eexists. repeat split.
  - rewrite fallback_datetime. eexists. repeat split.
Qed.

(** C6 (as the code has it). When the timestamp resolves and the import of
    version.py raises [ImportError] (the file is missing, or it runs and
    lacks one of the five names), [get_info] returns the fallback record,
    whose [version_info] ends in [None] and whose [vcs_info] is empty,
    provided the release is not a development release or whatever
    [date_info] version.py binds is a datetime. *)
Theorem get_info_falls_back
  (g : globals) (dynamic : bool) (w : World) (d : datetime) :
  date_information w = Ok d ->
  raises_ImportError w ->
  (dev g = false
   \/ forall m di, import_version w = Ok m ->
                   lookup "date_info" m = Some di ->
                   exists d', di = PyDatetime d') ->
  exists i,
    get_info g dynamic w = Ok i
    /\ version_info i
       = PyTuple [PyStr (name g); PyStr (major g); PyStr (minor g); PyNone]
    /\ vcs_info i = PyTuple [PyNone; PyTuple [PyNone; PyNone]].
Proof.
  intros Hdate Himp Hdi. unfold get_info. rewrite Hdate. cbn [bind].
  rewrite get_info_from_eq.
  destruct Himp as [Him | (m & k & Hm & Hk & Hnone)].
  - rewrite Him. apply fallback_ok. eauto.
  - rewrite Hm.
    destruct (lookup "date" m) as [da|] eqn:Eda; [|apply fallback_ok; eauto].
    destruct (lookup "date_info" m) as [di|] eqn:Edi;
      [|apply fallback_ok; eauto].
    assert (Hok : dev g = false \/ (exists d', di = PyDatetime d')).
    { destruct Hdi as [Hdev | Hdi]; [now left | right; eauto]. }
    destruct (lookup "version" m) as [v|] eqn:Ev; [|now apply fallback_ok].
    destruct (lookup "version_info" m) as [vi|] eqn:Evi;
      [|now apply fallback_ok].
    destruct (lookup "vcs_info" m) as [vc|] eqn:Evc; [|now apply fallback_ok].
    exfalso. simpl in Hk.
    destruct Hk as [<- | [<- | [<- | [<- | [<- | []]]]]]; congruence.
Qed.

(** A version.py that binds [date] and [date_info] only. *)
Lemma get_info_falls_back_witness :
  exists i,
    get_info release false w_dates_only = Ok i
    /\ version_info i
       = PyTuple [PyStr (name release); PyStr (major release);
                  PyStr (minor release); PyNone]
    /\ vcs_info i = PyTuple [PyNone; PyTuple [PyNone; PyNone]].
Proof.
  apply (get_info_falls_back release false w_dates_only
           (mkDatetime 2019 1 1 0 0 0 0)).
  - reflexivity.
  - right.
    exists [("date_info", PyDatetime (mkDatetime 2018 1 1 0 0 0 0));
            ("date", PyStr "Mon Jan  1 00:00:00 2018")], "version".
    split; [reflexivity|]. split; [simpl; auto | reflexivity].
  - right. intros m di Hm Hdi. vm_compute in Hm. inversion Hm; subst m.
    vm_compute in Hdi. inversion Hdi. eauto.
Defined.

(** C6 (as the spec has it) fails: an import that fails with an error other
    than [ImportError] is not caught, and after a caught [ImportError] the
    fallback itself raises when version.py had bound [date_info] to
    something that is not a datetime. *)
Lemma get_info_raises_on_bad_version_py :
  get_info release true w_truncated = Raise SyntaxError
  /\ get_info release false w_truncated = Raise SyntaxError
  /\ raises_ImportError w_partial
  /\ get_info release true w_partial = Raise AttributeError
  /\ get_info release false w_partial = Raise AttributeError.
Proof.
  split; [reflexivity|]. split; [reflexivity|]. split.
  - right. exists [("date_info", PyNone); ("date", PyStr "never")], "version".
    split; [reflexivity|]. split; [simpl; auto | reflexivity].
  - split; reflexivity.
Qed.

(* ================================================================== *)
(** ** What raises *)

Lemma returns_Ok {A : Type} (a : A) : returns (Ok a).
Proof. now exists a. Qed.

(** [get_info] beside a version.py as [writefile] writes it. *)
Lemma get_info_generated
  (g : globals) (dynamic : bool) (w : World) (d : datetime)
  (dv v vi da di k r : pyval) (t rest : list pyval) :
  date_information w = Ok d ->
  versionfile w
  = Some (generated_text dv v vi da di (PyTuple (k :: PyTuple (r :: t) :: rest))) ->
  get_info g dynamic w
  = Ok (mkInfo da di v vi (PyTuple (k :: PyTuple (r :: t) :: rest))).
Proof.
  intros Hdate Hfile. unfold get_info. rewrite Hdate. cbn [bind].
  now rewrite (get_info_from_generated _ _ _ _ _ _ _ _ _ _ Hfile).
Qed.

(** C7 (as the code has it). When the timestamp resolves and version.py is
    missing or is a file as [writefile] writes it (with a [vcs_info] of the
    shape [(kind, (revision, ...), ...)]), [get_info] returns, and
    [write_versionfile] returns when version.py can be opened for writing;
    the one exception it can raise is the [IOError] of a version.py that
    cannot. *)
Theorem operations_return (g : globals) (w : World) (d : datetime) :
  date_information w = Ok d ->
  (versionfile w = None
   \/ exists dv v vi da di k r t rest,
        versionfile w
        = Some (generated_text dv v vi da di
                  (PyTuple (k :: PyTuple (r :: t) :: rest)))) ->
  (forall dynamic, returns (get_info g dynamic w))
  /\ (versionfile_writable w = true -> returns (write_versionfile g w))
  /\ (forall e, write_versionfile g w = Raise e ->
                e = IOError /\ versionfile_writable w = false).
Proof.
  intros Hdate Hfile.
  assert (Hwrite : forall i,
             (versionfile_writable w = true ->
              returns (w' <- writefile g w i ;; Ok (w', version i)))
             /\ (forall e, (w' <- writefile g w i ;; Ok (w', version i)) = Raise e ->
                           e = IOError /\ versionfile_writable w = false)).
  { intro i. rewrite writefile_eq. destruct (versionfile_writable w); cbn [bind].
    - split; [intros _; apply returns_Ok | discriminate].
    - split; [discriminate | intros e H; inversion H; auto]. }
  destruct Hfile as [Hnone | (dv & v & vi & da & di & k & r & t & rest & Hgen)].
  - split; [intro dynamic; rewrite (get_info_no_file _ _ _ _ Hnone Hdate);
            apply returns_Ok|].
    unfold write_versionfile. rewrite (get_info_no_file _ _ _ _ Hnone Hdate).
    cbn [bind vcs_info subscript nth_error py_eq]. unfold isfile.
    rewrite Hnone. apply Hwrite.
  - split; [intro dynamic; rewrite (get_info_generated _ _ _ _ _ _ _ _ _ _ _ _ _ Hdate Hgen);
            apply returns_Ok|].
    unfold write_versionfile.
    rewrite (get_info_generated _ _ _ _ _ _ _ _ _ _ _ _ _ Hdate Hgen).
    cbn [bind vcs_info subscript nth_error].
    destruct (py_eq k (PyStr "mercurial")); [apply Hwrite|].
    unfold isfile. rewrite Hgen, (import_version_generated _ _ _ _ _ _ _ Hgen).
    cbn. split; [intros _; apply returns_Ok | discriminate].
Qed.

(** A fresh checkout. *)
Lemma operations_return_witness :
  (forall dynamic, returns (get_info release dynamic w_fresh))
  /\ (versionfile_writable w_fresh = true ->
      returns (write_versionfile release w_fresh))
  /\ (forall e, write_versionfile release w_fresh = Raise e ->
                e = IOError /\ versionfile_writable w_fresh = false).
Proof.
  apply (operations_return release w_fresh (mkDatetime 2018 1 1 0 0 0 0)).
  - reflexivity.
  - left. reflexivity.
Defined.

(** C7 (as the spec has it) fails: with [SOURCE_DATE_EPOCH] set to a word,
    [int] raises [ValueError] out of [get_info] and [write_versionfile],
    though version.py could be written. *)
Lemma bad_epoch_raises :
  versionfile_writable w_bad_epoch = true
  /\ get_info release true w_bad_epoch = Raise ValueError
  /\ get_info release false w_bad_epoch = Raise ValueError
  /\ write_versionfile release w_bad_epoch = Raise ValueError.
Proof. repeat split. Qed.

(* ================================================================== *)
(** ** The timestamp *)

Lemma date_information_inputs (w1 w2 : World) :
  SOURCE_DATE_EPOCH w1 = SOURCE_DATE_EPOCH w2 ->
  (SOURCE_DATE_EPOCH w1 = None ->
   int_of_float (time_time w1) = int_of_float (time_time w2)) ->
  date_information w1 = date_information w2.
Proof.
  intros Henv Hclock. unfold date_information, environ_get.
  rewrite <- Henv. destruct (SOURCE_DATE_EPOCH w1); [reflexivity|].
  cbn [py_int]. now rewrite (Hclock eq_refl).
Qed.

Lemma get_info_inputs (g : globals) (dynamic1 dynamic2 : bool) (w1 w2 : World) :
  date_information w1 = date_information w2 ->
  versionfile w1 = versionfile w2 ->
  get_info g dynamic1 w1 = get_info g dynamic2 w2.
Proof.
  intros Hdate Hfile. unfold get_info. rewrite Hdate.
  destruct (date_information w2); [|reflexivity]. cbn [bind].
  rewrite !get_info_from_eq. unfold import_version. now rewrite Hfile.
Qed.



(** Beside the version.py of 2018, [SOURCE_DATE_EPOCH=0] resolves to 1970
    and the record returned carries the dates of the file. *)
Example epoch_and_version_py :
  SOURCE_DATE_EPOCH w_epoch0 = Some "0"
  /\ date_information w_epoch0 = Ok (mkDatetime 1970 1 1 0 0 0 0)
  /\ exists i, get_info release true w_epoch0 = Ok i
               /\ date_info i = PyDatetime (mkDatetime 2018 1 1 0 0 0 0)
               /\ date i = PyStr "Mon Jan  1 00:00:00 2018".
Proof.
  split; [reflexivity|]. split; [reflexivity|].
  eexists. split; [vm_compute; reflexivity | split; reflexivity].
Qed.

(* ================================================================== *)
(** ** What the version string depends on *)

Lemma get_info_no_file_inv
  (g : globals) (dynamic : bool) (w : World) (i : info) :
  versionfile w = None ->
  get_info g dynamic w = Ok i ->
  exists d,
    date_info i = PyDatetime d
    /\ version i
       = PyStr (if dev g
                then major g ++ "." ++ minor g ++ ".dev_"
                     ++ Calendar.strftime_YmdHMS d
                else major g ++ "." ++ minor g).
Proof.
  intros Hfile Hi.
  destruct (date_information w) as [d|e] eqn:Hdate.
  - rewrite (get_info_no_file _ _ _ _ Hfile Hdate) in Hi.
    inversion Hi; subst. exists d. split; reflexivity.
  - unfold get_info in Hi. rewrite Hdate in Hi. discriminate.
Qed.

(** C9 (as the code has it). The version string that [get_info] builds
    when version.py is missing is determined by [major], [minor], [dev] and
    the resolved [date_info]: two calls that agree on these return the same
    version string, and for a release ([dev] false) agreement on [major]
    and [minor] is enough. *)
Theorem version_determined_by_constants_and_date
  (g1 g2 : globals) (dynamic1 dynamic2 : bool) (w1 w2 : World) (i1 i2 : info) :
  major g1 = major g2 ->
  minor g1 = minor g2 ->
  dev g1 = dev g2 ->
  versionfile w1 = None ->
  versionfile w2 = None ->
  get_info g1 dynamic1 w1 = Ok i1 ->
  get_info g2 dynamic2 w2 = Ok i2 ->
  dev g1 = false \/ date_info i1 = date_info i2 ->
  version i1 = version i2.
Proof.
  intros Hmajor Hminor Hdev Hf1 Hf2 H1 H2 Hsame.
  destruct (get_info_no_file_inv _ _ _ _ Hf1 H1) as (d1 & Hd1 & ->).
  destruct (get_info_no_file_inv _ _ _ _ Hf2 H2) as (d2 & Hd2 & ->).
  rewrite <- Hdev, <- Hmajor, <- Hminor.
  destruct Hsame as [Hrel | Hdate].
  - now rewrite Hrel.
  - rewrite Hd1, Hd2 in Hdate. inversion Hdate; subst. reflexivity.
Qed.

(** The same instant from the clock and from [SOURCE_DATE_EPOCH]. *)
Lemma version_determined_by_constants_and_date_witness :
  PyStr "3.0.dev_20180101000000" = PyStr "3.0.dev_20180101000000".
Proof.
  exact (version_determined_by_constants_and_date release release true false
           w_fresh w_epoch_2018
           (mkInfo (PyStr "Mon Jan  1 00:00:00 2018")
              (PyDatetime (mkDatetime 2018 1 1 0 0 0 0))
              (PyStr "3.0.dev_20180101000000")
              (PyTuple [PyStr "cynetworkx"; PyStr "3"; PyStr "0"; PyNone])
              (PyTuple [PyNone; PyTuple [PyNone; PyNone]]))
           (mkInfo (PyStr "Mon Jan  1 00:00:00 2018")
              (PyDatetime (mkDatetime 2018 1 1 0 0 0 0))
              (PyStr "3.0.dev_20180101000000")
              (PyTuple [PyStr "cynetworkx"; PyStr "3"; PyStr "0"; PyNone])
              (PyTuple [PyNone; PyTuple [PyNone; PyNone]]))
           eq_refl eq_refl eq_refl eq_refl eq_refl eq_refl eq_refl
           (or_intror eq_refl)).
Defined.

(** C9 (as the spec has it) fails: two fresh checkouts with the same
    [major], [minor], [dev] and revision ([None]), a year apart, get
    different version strings. *)
Lemma version_depends_on_time :
  exists i1 i2,
    get_info release true w_fresh = Ok i1
    /\ get_info release true w_fresh_2019 = Ok i2
    /\ version_info i1 = version_info i2
    /\ version i1 = PyStr "3.0.dev_20180101000000"
    /\ version i2 = PyStr "3.0.dev_20190101000000"
    /\ version i1 <> version i2.
Proof.
  eexists. eexists. split; [vm_compute; reflexivity|].
  split; [vm_compute; reflexivity|].
  split; [reflexivity|]. split; [reflexivity|]. split; [reflexivity|].
  discriminate.
Qed.

(* ================================================================== *)
(** * Further properties *)

(** ** What one call of write_versionfile does *)

(** The two ways [write_versionfile] returns: it wrote the record of
    [get_info], or it found a version.py of another kind than ['mercurial']
    and took the version from it. *)
Lemma write_versionfile_cases (g : globals) (w w' : World) (v : pyval) :
  write_versionfile g w = Ok (w', v) ->
  exists i kind,
    get_info g true w = Ok i
    /\ subscript (vcs_info i) 0 = Ok kind
    /\ ((w' = fh_write w (generated_text (PyBool (dev g)) (version i)
                            (version_info i) (date i) (date_info i) (vcs_info i))
         /\ v = version i
         /\ versionfile_writable w = true
         /\ (py_eq kind (PyStr "mercurial") = true \/ versionfile w = None))
        \/ (w' = w
            /\ py_eq kind (PyStr "mercurial") = false
            /\ exists src m, versionfile w = Some src
                             /\ import_version w = Ok m
                             /\ lookup "version" m = Some v)).
Proof.
  intro Hw. unfold write_versionfile in Hw.
  destruct (get_info g true w) as [i|e] eqn:Hi; [|discriminate].
  cbn [bind] in Hw.
  destruct (subscript (vcs_info i) 0) as [kind|e] eqn:Hkind; [|discriminate].
  cbn [bind] in Hw. exists i, kind. split; [reflexivity|]. split; [exact Hkind|].
  assert (Hwrite : (w0 <- writefile g w i ;; Ok (w0, version i)) = Ok (w', v) ->
             w' = fh_write w (generated_text (PyBool (dev g)) (version i)
                                (version_info i) (date i) (date_info i) (vcs_info i))
             /\ v = version i /\ versionfile_writable w = true).
  { rewrite writefile_eq. destruct (versionfile_writable w); [|discriminate].
    cbn [bind]. intro H. inversion H; subst. repeat split. }
  destruct (py_eq kind (PyStr "mercurial")) eqn:Hmerc.
  - left. destruct (Hwrite Hw) as (-> & -> & Hwr). repeat split; auto.
  - unfold isfile in Hw. destruct (versionfile w) as [src|] eqn:Hfile.
    + right. destruct (import_version w) as [m|e] eqn:Hm; [|discriminate].
      cbn [bind] in Hw. destruct (lookup "version" m) as [v0|] eqn:Hv;
        [|discriminate].
      inversion Hw; subst. split; [reflexivity|]. split; [reflexivity|].
      exists src, m. repeat split; auto.
    + left. destruct (Hwrite Hw) as (-> & -> & Hwr). repeat split; auto.
Qed.

(** X1. A call of [write_versionfile] that returns has left the environment,
    the clock, the [.git] marker and the permissions alone, and has written
    at most once: either the world is as before, or version.py now holds
    the template filled with the record of [get_info] and the release's
    [dev], and the version returned is the one written. *)
Theorem write_versionfile_frame (g : globals) (w w' : World) (v : pyval) :
  write_versionfile g w = Ok (w', v) ->
  SOURCE_DATE_EPOCH w' = SOURCE_DATE_EPOCH w
  /\ time_time w' = time_time w
  /\ gitdir_isdir w' = gitdir_isdir w
  /\ versionfile_writable w' = versionfile_writable w
  /\ (w' = w
      \/ exists i s,
           get_info g true w = Ok i
           /\ s = generated_text (PyBool (dev g)) (version i) (version_info i)
                    (date i) (date_info i) (vcs_info i)
           /\ versionfile w' = Some s
           /\ written w' = s :: written w
           /\ v = version i).
Proof.
  intro Hw.
  destruct (write_versionfile_cases _ _ _ _ Hw)
    as (i & kind & Hi & _ & [(-> & -> & _ & _) | (-> & _ & _)]).
  - repeat split. right. eexists. eexists. repeat split. exact Hi.
  - repeat split. now left.
Qed.

Lemma write_versionfile_frame_witness :
  SOURCE_DATE_EPOCH (fh_write w_fresh version_py_2018) = SOURCE_DATE_EPOCH w_fresh
  /\ time_time (fh_write w_fresh version_py_2018) = time_time w_fresh
  /\ gitdir_isdir (fh_write w_fresh version_py_2018) = gitdir_isdir w_fresh
  /\ versionfile_writable (fh_write w_fresh version_py_2018)
     = versionfile_writable w_fresh
  /\ (fh_write w_fresh version_py_2018 = w_fresh
      \/ exists i s,
           get_info release true w_fresh = Ok i
           /\ s = generated_text (PyBool (dev release)) (version i)
                    (version_info i) (date i) (date_info i) (vcs_info i)
           /\ versionfile (fh_write w_fresh version_py_2018) = Some s
           /\ written (fh_write w_fresh version_py_2018) = s :: written w_fresh
           /\ PyStr "3.0.dev_20180101000000" = version i).
Proof.
  exact (write_versionfile_frame release w_fresh
           (fh_write w_fresh version_py_2018)
           (PyStr "3.0.dev_20180101000000") write_versionfile_fresh).
Defined.

(** X2. In a tree without version.py whose version.py can be created, with or
    without [.git], when the timestamp resolves (for a development release,
    to a year from 1900 on), [write_versionfile] writes the template filled
    with the record built from the constants and the resolved timestamp,
    and returns the version string of that record. *)
Theorem write_versionfile_creates (g : globals) (w : World) (d : datetime) :
  versionfile w = None ->
  date_information w = Ok d ->
  versionfile_writable w = true ->
  dev g = false \/ (1900 <= dt_year d)%nat ->
  let v := PyStr (if dev g
                  then major g ++ "." ++ minor g ++ ".dev_"
                       ++ Calendar.strftime_YmdHMS d
                  else major g ++ "." ++ minor g) in
  write_versionfile g w
  = Ok (fh_write w
          (generated_text (PyBool (dev g)) v
             (PyTuple [PyStr (name g); PyStr (major g); PyStr (minor g); PyNone])
             (PyStr (Calendar.asctime d)) (PyDatetime d)
             (PyTuple [PyNone; PyTuple [PyNone; PyNone]])),
        v).
Proof.
  intros Hfile Hdate Hwr _ v. unfold write_versionfile.
  rewrite (get_info_no_file _ _ _ _ Hfile Hdate).
  cbn [bind vcs_info subscript nth_error py_eq]. unfold isfile.
  rewrite Hfile, writefile_eq, Hwr. reflexivity.
Qed.

Lemma write_versionfile_creates_witness :
  write_versionfile release w_fresh
  = Ok (fh_write w_fresh version_py_2018, PyStr "3.0.dev_20180101000000").
Proof.
  apply (write_versionfile_creates release w_fresh
           (mkDatetime 2018 1 1 0 0 0 0) eq_refl eq_refl eq_refl).
  right. simpl. lia.
Defined.

(** ** The template *)

(** X3. Whatever six values fill the template of lines 59-84 (strings with
    quotes, backslashes or line breaks, nested tuples, datetimes), the
    formatting succeeds and the text is a module that binds each of the six
    names to the value it was filled with: the docstring, the comments and
    [import datetime] never get in the way of a [repr]. *)
Theorem template_round_trip (dv v vi da di vc : pyval) :
  exists s,
    py_format text
      [("dev", dv); ("version", v); ("version_info", vi); ("date", da);
       ("date_info", di); ("vcs_info", vc)]
    = Ok s
    /\ exists m,
         exec_module s = Ok m
         /\ lookup "version" m = Some v
         /\ lookup "date" m = Some da
         /\ lookup "dev" m = Some dv
         /\ lookup "version_info" m = Some vi
         /\ lookup "date_info" m = Some di
         /\ lookup "vcs_info" m = Some vc.
Proof.
  eexists. split; [apply py_format_text|].
  eexists. split; [apply exec_module_generated|]. repeat split.
Qed.

(** ** Reading back what was written *)

Lemma info_eta (i : info) :
  mkInfo (date i) (date_info i) (version i) (version_info i) (vcs_info i) = i.
Proof. now destruct i. Qed.

(** Beside a version.py that holds the rendering of a record [get_info]
    once returned, [get_info] returns that record again. *)
Lemma get_info_reads_record
  (g g0 : globals) (dynamic dynamic0 : bool) (w w0 : World) (d : datetime)
  (dv : pyval) (i : info) :
  get_info g0 dynamic0 w0 = Ok i ->
  versionfile w
  = Some (generated_text dv (version i) (version_info i) (date i)
            (date_info i) (vcs_info i)) ->
  date_information w = Ok d ->
  get_info g dynamic w = Ok i.
Proof.
  intros Hi Hfile Hdate. unfold get_info. rewrite Hdate. cbn [bind].
  rewrite (get_info_from_generated _ _ _ _ _ _ _ _ _ _ Hfile).
  destruct (get_info_vcs_shape _ _ _ _ Hi) as (x & r & Hx & Hr).
  rewrite Hx. cbn [bind]. rewrite Hr. cbn [bind]. now rewrite info_eta.
Qed.

(** X4. When [write_versionfile] writes, every later [get_info] beside the
    written file returns the whole record that was written, field for
    field: for either value of [dynamic], whatever the clock and
    [SOURCE_DATE_EPOCH] then say (as long as the timestamp resolves), and
    whatever [name], [major], [minor] and [dev] have become. *)
Theorem written_record_read_back
  (g : globals) (w w' : World) (v : pyval) (s : string) :
  write_versionfile g w = Ok (w', v) ->
  written w' = s :: written w ->
  exists i,
    get_info g true w = Ok i
    /\ forall (g2 : globals) (dynamic : bool) (w2 : World) (d2 : datetime),
         versionfile w2 = versionfile w' ->
         date_information w2 = Ok d2 ->
         get_info g2 dynamic w2 = Ok i.
Proof.
  intros Hw Hlog.
  destruct (write_versionfile_written _ _ _ _ _ Hw Hlog) as (i & Hi & _ & Hgen).
  exists i. split; [exact Hi|]. intros g2 dynamic w2 d2 Hfile Hdate.
  rewrite Hgen in Hfile. exact (get_info_reads_record _ _ _ _ _ _ _ _ _ Hi Hfile Hdate).
Qed.

(** The file of 2018 read in 2019 by a release 4.1. *)
Lemma written_record_read_back_witness :
  exists i,
    get_info release true w_fresh = Ok i
    /\ forall (g2 : globals) (dynamic : bool) (w2 : World) (d2 : datetime),
         versionfile w2 = versionfile (fh_write w_fresh version_py_2018) ->
         date_information w2 = Ok d2 ->
         get_info g2 dynamic w2 = Ok i.
Proof.
  exact (written_record_read_back release w_fresh
           (fh_write w_fresh version_py_2018)
           (PyStr "3.0.dev_20180101000000") version_py_2018
           write_versionfile_fresh eq_refl).
Defined.

Example read_back_by_later_release :
  get_info (mkGlobals "cynetworkx" "4" "1" false) false w_tarball
  = get_info release true w_fresh.
Proof. vm_compute. reflexivity. Qed.

(** ** Calling write_versionfile again *)

(** What [get_info] returns beside the same version.py at another time
    has the same [vcs_info]. *)
Lemma get_info_same_file
  (g : globals) (dynamic : bool) (w w2 : World) (d2 : datetime) (i : info) :
  get_info g dynamic w = Ok i ->
  versionfile w2 = versionfile w ->
  date_information w2 = Ok d2 ->
  exists i2, get_info g dynamic w2 = Ok i2 /\ vcs_info i2 = vcs_info i.
Proof.
  intros Hi Hfile Hdate. unfold get_info in *. rewrite Hdate. cbn [bind].
  destruct (date_information w) as [d|]; [|discriminate]. cbn [bind] in Hi.
  rewrite get_info_from_eq in *.
  assert (Himp : import_version w2 = import_version w).
  { unfold import_version. now rewrite Hfile. }
  rewrite Himp.
  assert (Hfb : forall da da2 di,
             fallback g da di = Ok i ->
             exists i2, fallback g da2 (PyDatetime d2) = Ok i2
                        /\ vcs_info i2 = vcs_info i).
  { intros da da2 di Hf. apply fallback_inv in Hf as (_ & _ & _ & ->).
    rewrite fallback_datetime. eexists. split; reflexivity. }
  destruct (import_version w) as [m|e].
  - destruct (lookup "date" m) as [da|]; [|now apply (Hfb _ _ _ Hi)].
    destruct (lookup "date_info" m) as [di|]; [|now apply (Hfb _ _ _ Hi)].
    eauto.
  - destruct e; try discriminate. now apply (Hfb _ _ _ Hi).
Qed.

(** X5. [write_versionfile] is idempotent on version.py and on its result:
    after a call that returned the version [v], a further call beside the
    version.py it left (at any later time at which the timestamp resolves,
    the file being writable) returns [v] again and leaves a version.py with
    the same text. *)
Theorem write_versionfile_again
  (g : globals) (w w' : World) (v : pyval) (w2 : World) (d2 : datetime) :
  write_versionfile g w = Ok (w', v) ->
  versionfile w2 = versionfile w' ->
  date_information w2 = Ok d2 ->
  versionfile_writable w2 = true ->
  exists w3,
    write_versionfile g w2 = Ok (w3, v)
    /\ versionfile w3 = versionfile w2.
Proof.
  intros Hw Hfile Hdate Hwr.
  destruct (write_versionfile_cases _ _ _ _ Hw)
    as (i & kind & Hi & Hkind & [(-> & -> & _ & _) | (-> & Hmerc & Hsrc)]).
  - cbn [fh_write versionfile] in Hfile.
    pose proof (get_info_reads_record g _ true _ _ _ _ _ _ Hi Hfile Hdate) as Hi2.
    unfold write_versionfile. rewrite Hi2. cbn [bind]. rewrite Hkind. cbn [bind].
    rewrite writefile_eq, Hwr. cbn [bind].
    destruct (py_eq kind (PyStr "mercurial")).
    + eexists. split; [reflexivity|]. cbn [fh_write versionfile]. now rewrite Hfile.
    + exists w2. split; [|reflexivity]. unfold isfile. rewrite Hfile.
      now rewrite (import_version_generated _ _ _ _ _ _ _ Hfile).
  - destruct Hsrc as (src & m & Hsrc & Hm & Hv).
    destruct (get_info_same_file _ _ _ _ _ _ Hi Hfile Hdate) as (i2 & Hi2 & Hvc).
    unfold write_versionfile. rewrite Hi2. cbn [bind]. rewrite Hvc, Hkind.
    cbn [bind].
    assert (Himp : import_version w2 = Ok m).
    { unfold import_version in *. now rewrite Hfile. }
    exists w2. split; [|reflexivity].
    rewrite Hmerc. unfold isfile. rewrite Hfile, Hsrc, Himp. cbn [bind].
    now rewrite Hv.
Qed.

(** Creating the file in 2018 and calling again in 2019. *)
Lemma write_versionfile_again_witness :
  exists w3,
    write_versionfile release w_tarball = Ok (w3, PyStr "3.0.dev_20180101000000")
    /\ versionfile w3 = versionfile w_tarball.
Proof.
  exact (write_versionfile_again release w_fresh
           (fh_write w_fresh version_py_2018)
           (PyStr "3.0.dev_20180101000000") w_tarball
           (mkDatetime 2019 1 1 0 0 0 0)
           write_versionfile_fresh eq_refl eq_refl eq_refl).
Defined.

(** ** What the results depend on *)

(** X6. [get_info] is a function of [SOURCE_DATE_EPOCH] (or, when that is
    unset, of the clock's whole seconds) and of the text of version.py,
    and of nothing else: two calls that agree on these return the same
    record or raise the same exception, whatever [dynamic] is, whether or
    not [.git] is there, and whatever the clock says when the variable is
    set. *)
Theorem get_info_reproducible
  (g : globals) (dynamic1 dynamic2 : bool) (w1 w2 : World) :
  SOURCE_DATE_EPOCH w1 = SOURCE_DATE_EPOCH w2 ->
  (SOURCE_DATE_EPOCH w1 = None ->
   int_of_float (time_time w1) = int_of_float (time_time w2)) ->
  versionfile w1 = versionfile w2 ->
  get_info g dynamic1 w1 = get_info g dynamic2 w2.
Proof.
  intros Henv Hclock Hfile.
  apply get_info_inputs; [now apply date_information_inputs | exact Hfile].
Qed.

(** A git checkout in 2019 and a plain tree in 2018, both with
    [SOURCE_DATE_EPOCH=1514764800] and without version.py. *)
Lemma get_info_reproducible_witness :
  get_info release true
    (mkWorld (Some "1514764800") (1546300800 # 1) true None true [])
  = get_info release false
      (mkWorld (Some "1514764800") (1514764800 # 1) false None false []).
Proof.
  apply (get_info_reproducible release true false
           (mkWorld (Some "1514764800") (1546300800 # 1) true None true [])
           (mkWorld (Some "1514764800") (1514764800 # 1) false None false [])).
  - reflexivity.
  - discriminate.
  - reflexivity.
Defined.

(** X7. The same for [write_versionfile], which also depends on whether
    version.py can be opened for writing: two calls that agree on
    [SOURCE_DATE_EPOCH] (or on the clock's whole seconds when it is unset),
    on version.py and on that permission raise the same exception or
    return the same version and leave the same version.py.  So with
    [SOURCE_DATE_EPOCH] set the file written does not depend on the time
    of the build. *)
Theorem write_versionfile_reproducible (g : globals) (w1 w2 : World) :
  SOURCE_DATE_EPOCH w1 = SOURCE_DATE_EPOCH w2 ->
  (SOURCE_DATE_EPOCH w1 = None ->
   int_of_float (time_time w1) = int_of_float (time_time w2)) ->
  versionfile w1 = versionfile w2 ->
  versionfile_writable w1 = versionfile_writable w2 ->
  match write_versionfile g w1, write_versionfile g w2 with
  | Ok (w1', v1), Ok (w2', v2) => v1 = v2 /\ versionfile w1' = versionfile w2'
  | Raise e1, Raise e2 => e1 = e2
  | _, _ => False
  end.
Proof.
  intros Henv Hclock Hfile Hwr. unfold write_versionfile.
  rewrite (get_info_inputs g true true w1 w2
             (date_information_inputs w1 w2 Henv Hclock) Hfile).
  destruct (get_info g true w2) as [i|e]; [|reflexivity]. cbn [bind].
  destruct (subscript (vcs_info i) 0) as [kind|e]; [|reflexivity]. cbn [bind].
  rewrite !writefile_eq, Hwr. unfold isfile, import_version. rewrite Hfile.
  destruct (py_eq kind (PyStr "mercurial")).
  - destruct (versionfile_writable w2); cbn [bind]; [split|]; reflexivity.
  - destruct (versionfile w2) as [src|] eqn:Hsrc.
    + destruct (exec_module src) as [m|e]; [|reflexivity]. cbn [bind].
      destruct (lookup "version" m); [split; congruence | reflexivity].
    + destruct (versionfile_writable w2); cbn [bind]; [split|]; reflexivity.
Qed.

Lemma write_versionfile_reproducible_witness :
  match write_versionfile release
          (mkWorld (Some "1514764800") (1546300800 # 1) true None true []),
        write_versionfile release
          (mkWorld (Some "1514764800") (1514764800 # 1) false None true [])
  with
  | Ok (w1', v1), Ok (w2', v2) => v1 = v2 /\ versionfile w1' = versionfile w2'
  | Raise e1, Raise e2 => e1 = e2
  | _, _ => False
  end.
Proof.
  apply (write_versionfile_reproducible release
           (mkWorld (Some "1514764800") (1546300800 # 1) true None true [])
           (mkWorld (Some "1514764800") (1514764800 # 1) false None true [])).
  - reflexivity.
  - discriminate.
  - reflexivity.
  - reflexivity.
Defined.

(** ** A version.py that binds some of the names *)

(** X8. The from-import of line 163 binds [date] and [date_info] before it
    fails on a later name, and the fallback keeps them: when version.py
    binds [date] and a datetime [date_info] but lacks one of [version],
    [version_info] and [vcs_info], [get_info] returns the file's [date]
    and [date_info], and the development stamp of the version is that of
    the file's [date_info] (of the year 1900 or later), not of the resolved
    timestamp. *)
Theorem partial_import_keeps_dates
  (g : globals) (dynamic : bool) (w : World) (d : datetime)
  (m : dict) (da : pyval) (d' : datetime) :
  date_information w = Ok d ->
  import_version w = Ok m ->
  lookup "date" m = Some da ->
  lookup "date_info" m = Some (PyDatetime d') ->
  lookup "version" m = None \/ lookup "version_info" m = None
  \/ lookup "vcs_info" m = None ->
  dev g = false \/ (1900 <= dt_year d')%nat ->
  get_info g dynamic w
  = Ok (mkInfo da (PyDatetime d')
          (PyStr (if dev g
                  then major g ++ "." ++ minor g ++ ".dev_"
                       ++ Calendar.strftime_YmdHMS d'
                  else major g ++ "." ++ minor g))
          (PyTuple [PyStr (name g); PyStr (major g); PyStr (minor g); PyNone])
          (PyTuple [PyNone; PyTuple [PyNone; PyNone]])).
Proof.
  intros Hdate Hm Hda Hdi Hmissing _. unfold get_info. rewrite Hdate. cbn [bind].
  rewrite get_info_from_eq, Hm, Hda, Hdi, <- fallback_datetime.
  destruct (lookup "version" m); [|reflexivity].
  destruct (lookup "version_info" m); [|reflexivity].
  destruct (lookup "vcs_info" m); [|reflexivity].
  destruct Hmissing as [H | [H | H]]; discriminate.
Qed.

(** Read in 2019, the file that stops after the dates of 2018. *)
Lemma partial_import_keeps_dates_witness :
  get_info release true w_dates_only
  = Ok (mkInfo (PyStr "Mon Jan  1 00:00:00 2018")
          (PyDatetime (mkDatetime 2018 1 1 0 0 0 0))
          (PyStr "3.0.dev_20180101000000")
          (PyTuple [PyStr "cynetworkx"; PyStr "3"; PyStr "0"; PyNone])
          (PyTuple [PyNone; PyTuple [PyNone; PyNone]])).
Proof.
  refine (partial_import_keeps_dates release true w_dates_only
           (mkDatetime 2019 1 1 0 0 0 0)
           [("date_info", PyDatetime (mkDatetime 2018 1 1 0 0 0 0));
            ("date", PyStr "Mon Jan  1 00:00:00 2018")]
           (PyStr "Mon Jan  1 00:00:00 2018") (mkDatetime 2018 1 1 0 0 0 0)
           eq_refl eq_refl eq_refl eq_refl (or_introl eq_refl) _).
  right. simpl. lia.
Defined.

(** ** A version.py of a mercurial checkout *)

(** X10. Beside a version.py as [writefile] writes it whose kind is
    ['mercurial'], [write_versionfile] rewrites the file, with or without
    [.git]: the new text carries the file's own version, version_info,
    date, date_info and vcs_info, nothing of them is brought up to date,
    and [dev] alone is replaced by the release's; the version returned is
    the file's. *)
Theorem mercurial_file_rewritten
  (g : globals) (w : World) (d : datetime)
  (dv v vi da di r : pyval) (t rest : list pyval) :
  date_information w = Ok d ->
  versionfile w
  = Some (generated_text dv v vi da di
            (PyTuple (PyStr "mercurial" :: PyTuple (r :: t) :: rest))) ->
  versionfile_writable w = true ->
  write_versionfile g w
  = Ok (fh_write w
          (generated_text (PyBool (dev g)) v vi da di
             (PyTuple (PyStr "mercurial" :: PyTuple (r :: t) :: rest))),
        v).
Proof.
  intros Hdate Hfile Hwr. unfold write_versionfile.
  rewrite (get_info_generated _ _ _ _ _ _ _ _ _ _ _ _ _ Hdate Hfile).
  cbn [bind vcs_info subscript nth_error].
  change (py_eq (PyStr "mercurial") (PyStr "mercurial")) with true.
  cbn iota. now rewrite writefile_eq, Hwr.
Qed.

Lemma mercurial_file_rewritten_witness :
  write_versionfile release w_hg_tarball
  = Ok (fh_write w_hg_tarball
          (generated_text (PyBool true) (PyStr "3.0")
             (PyTuple [PyStr "cynetworkx"; PyStr "3"; PyStr "0";
                       PyStr "0f1e2d3c4b5a"])
             (PyStr "Mon Jan  1 00:00:00 2018")
             (PyDatetime (mkDatetime 2018 1 1 0 0 0 0))
             (PyTuple [PyStr "mercurial";
                       PyTuple [PyStr "0f1e2d3c4b5a"; PyStr "tip"]])),
        PyStr "3.0").
Proof.
  exact (mercurial_file_rewritten release w_hg_tarball
           (mkDatetime 2019 1 1 0 0 0 0) _ _ _ _ _ _ _ _
           eq_refl eq_refl eq_refl).
Defined.

(** ** A version.py without a version *)

(** X12. Beside a version.py that runs and does not bind [version],
    [write_versionfile] raises [ImportError] and writes nothing, although
    [get_info] falls back and returns (the release not being a development
    release, or whatever [date_info] the file binds being a datetime). *)
Theorem incomplete_file_raises (g : globals) (w : World) (d : datetime) (m : dict) :
  date_information w = Ok d ->
  import_version w = Ok m ->
  lookup "version" m = None ->
  (dev g = false
   \/ forall di, lookup "date_info" m = Some di -> exists d', di = PyDatetime d') ->
  returns (get_info g true w)
  /\ write_versionfile g w = Raise ImportError.
Proof.
  intros Hdate Hm Hv Hdi.
  assert (Himp : raises_ImportError w).
  { right. exists m, "version". repeat split; simpl; auto. }
  assert (Hdi' : dev g = false
                 \/ forall m0 di, import_version w = Ok m0 ->
                                  lookup "date_info" m0 = Some di ->
                                  exists d', di = PyDatetime d').
  { destruct Hdi as [H | H]; [now left | right].
    intros m0 di Hm0. rewrite Hm in Hm0. inversion Hm0; subst m0. apply H. }
  assert (Hi : exists i, get_info g true w = Ok i
                         /\ vcs_info i = PyTuple [PyNone; PyTuple [PyNone; PyNone]]).
  { unfold get_info. rewrite Hdate. cbn [bind].
    rewrite get_info_from_eq, Hm.
    assert (Hfb : forall da di, dev g = false \/ (exists d', di = PyDatetime d') ->
               exists i, fallback g da di = Ok i
                         /\ vcs_info i = PyTuple [PyNone; PyTuple [PyNone; PyNone]]).
    { intros da di H. destruct (fallback_ok g da di H) as (i & Hf & _ & Hvc). eauto. }
    destruct (lookup "date" m); [|apply Hfb; eauto].
    destruct (lookup "date_info" m) as [di|] eqn:Edi; [|apply Hfb; eauto].
    rewrite Hv. apply Hfb. destruct Hdi as [H | H]; [now left | right; eauto]. }
  destruct Hi as (i & Hi & Hvc). split; [now exists i|].
  unfold write_versionfile. rewrite Hi. cbn [bind]. rewrite Hvc.
  cbn [bind subscript nth_error py_eq]. unfold isfile.
  unfold import_version in Hm. destruct (versionfile w) as [src|] eqn:Hsrc;
    [|discriminate].
  unfold import_version. rewrite Hsrc, Hm. cbn [bind]. now rewrite Hv.
Qed.

Lemma incomplete_file_raises_witness :
  returns (get_info release true w_empty)
  /\ write_versionfile release w_empty = Raise ImportError.
Proof.
  apply (incomplete_file_raises release w_empty (mkDatetime 2019 1 1 0 0 0 0) []).
  - reflexivity.
  - reflexivity.
  - reflexivity.
  - right. intros di H. discriminate H.
Defined.

(** ** A version.py of another kind *)

Lemma py_eq_mercurial (k : pyval) :
  py_eq k (PyStr "mercurial") = true -> k = PyStr "mercurial".
Proof.
  destruct k; cbn; try discriminate.
  intro H. apply String.eqb_eq in H. now subst.
Qed.

(** X13. A version.py is kept unless it records the kind ['mercurial']:
    when version.py exists and, if it runs and binds a [vcs_info], the kind
    in it is not ['mercurial'], a call of [write_versionfile] that returns
    has written nothing and left the world as it was, with or without
    [.git], and the version it returns is the one version.py binds.  A
    version.py that binds no [vcs_info] is among them. *)
Theorem existing_file_kept (g : globals) (w : World) :
  isfile w = true ->
  (forall m vc, import_version w = Ok m ->
                lookup "vcs_info" m = Some vc ->
                subscript vc 0 <> Ok (PyStr "mercurial")) ->
  forall (w' : World) (v : pyval),
    write_versionfile g w = Ok (w', v) ->
    w' = w
    /\ exists m, import_version w = Ok m /\ lookup "version" m = Some v.
Proof.
  intros Hfile Hkind w' v Hw.
  destruct (write_versionfile_cases _ _ _ _ Hw)
    as (i & kind & Hi & Hk
        & [(_ & _ & _ & [Hmerc | Hnone]) | (-> & _ & src & m & _ & Hm & Hv)]).
  - exfalso. apply py_eq_mercurial in Hmerc. subst kind.
    destruct (get_info_cases _ _ _ _ Hi)
      as [(da & di & Hf) | (m & x & r & Hm & _ & _ & _ & _ & Hvc & _)].
    + apply fallback_inv in Hf as (_ & _ & _ & Hvc). rewrite Hvc in Hk.
      discriminate.
    + exact (Hkind m _ Hm Hvc Hk).
  - unfold isfile in Hfile. rewrite Hnone in Hfile. discriminate.
  - split; [reflexivity | eauto].
Qed.

(** The tarball of 2018 unpacked in 2019. *)
Lemma existing_file_kept_witness :
  w_tarball = w_tarball
  /\ exists m, import_version w_tarball = Ok m
               /\ lookup "version" m = Some (PyStr "3.0.dev_20180101000000").
Proof.
  apply (existing_file_kept release w_tarball).
  - reflexivity.
  - intros m vc Hm Hvc. vm_compute in Hm. inversion Hm; subst m.
    vm_compute in Hvc. inversion Hvc; subst vc. discriminate.
  - vm_compute. reflexivity.
Defined.
